(** * Portfolio assistant: ledger, positions and the operations layer

    A shallow embedding of
      - [persistence/database/connection.py]   (DatabaseManager and the
        pydantic models TransactionCreate, TransactionUpdate, PositionUpdate),
      - [persistence/crud/portfolio_crud.py]   (TransactionCRUD, PositionCRUD,
        PortfolioCRUD),
      - [mcp_persistence/server/portfolio_operations.py] (the operations that
        wrap every CRUD call into an OperationResponse).

    Conventions of the embedding.
      - [Decimal] values and NUMERIC columns are exact rationals ([Q]); the
        float conversions of the operations layer are the identity on them.
      - A Python computation is a function from the world to an outcome
        ([Return] or [Raise]) and the world it leaves behind, so that what was
        written before an exception stays written.
      - The PostgreSQL database is a pair of tables held as lists of rows in
        insertion order.  Each statement runs on a connection of its own;
        a list of booleans in the world says which of the coming connection
        attempts fail.  A statement that fails leaves the tables as they were
        (rollback).
      - A Python [str] is held as the bytes of its UTF-8 encoding.  Its
        length is its number of characters.  Upper-casing and the reading
        of digits are those of ASCII text: what Python makes of letters and
        digits outside ASCII is not modelled, and a theorem that says what
        is refused asks for ASCII text.
      - The SQL schema (tables, views, triggers, the stored function
        [recalculate_position]) is not part of the Python sources.  The
        constraints of [transactions], the view [portfolio_summary],
        pydantic's validation of a [Dict] field, [datetime.fromisoformat]
        and the order in which a query without ORDER BY returns its rows
        are section variables; the stored function is modelled from the
        specification and marked so.  Of the schema the sources say one
        thing, in database/test_db_setup.py: it declares the enum types
        [transaction_type] (BUY, SELL, DIVIDEND, SPLIT) and [currency_type]
        (USD, EUR, GBP). *)

From Stdlib Require Import List String Ascii Bool Arith ZArith QArith Qabs Lia.
From Stdlib Require Import Permutation DecimalString.
Import ListNotations.

Set Warnings "-register-all".

Local Open Scope string_scope.
Local Open Scope list_scope.
Local Open Scope nat_scope.

(* ===================================================================== *)
(** * Decimals *)
(* ===================================================================== *)

Definition Decimal := Q.
Bind Scope Q_scope with Decimal.

(** [bool(d)] for a Decimal: zero is falsy. *)
Definition decimal_truthy (d : Decimal) : bool := negb (Qeq_bool d 0%Q).

(** [a < b] on decimals, as a boolean. *)
Definition Qlt_bool (a b : Q) : bool := negb (Qle_bool b a).

(** Python's [sum(xs)]: a left fold that starts from [0]. *)
Definition py_sum (xs : list Q) : Q := fold_left Qplus xs 0%Q.

(* ===================================================================== *)
(** * Strings *)
(* ===================================================================== *)

Definition upper_ascii (c : ascii) : ascii :=
  let n := nat_of_ascii c in
  if (97 <=? n) && (n <=? 122) then ascii_of_nat (n - 32) else c.

(** [str.upper()], on ASCII text. *)
Fixpoint upper (s : string) : string :=
  match s with
  | EmptyString => EmptyString
  | String c s' => String (upper_ascii c) (upper s')
  end.

(** [bool(s)] for a string: the empty string is falsy. *)
Definition str_truthy (s : string) : bool :=
  match s with EmptyString => false | _ => true end.

(** Text is ASCII when each of its bytes is below 128. *)
Fixpoint is_ascii (s : string) : bool :=
  match s with
  | EmptyString => true
  | String c s' => (nat_of_ascii c <? 128) && is_ascii s'
  end.

(** A byte that continues a character of more than one byte (10xxxxxx). *)
Definition is_continuation (c : ascii) : bool :=
  let n := nat_of_ascii c in (128 <=? n) && (n <? 192).

(** [len(s)]: the number of characters, which is the number of bytes that
    start one. *)
Fixpoint char_length (s : string) : nat :=
  match s with
  | EmptyString => 0
  | String c s' => (if is_continuation c then 0 else 1) + char_length s'
  end.

Definition str_of_nat (n : nat) : string :=
  NilEmpty.string_of_uint (Nat.to_uint n).

Definition digit_of (c : ascii) : option nat :=
  let n := nat_of_ascii c in
  if (48 <=? n) && (n <=? 57) then Some (n - 48) else None.

Fixpoint parse_digits (s : string) (acc : nat) : option nat :=
  match s with
  | EmptyString => Some acc
  | String c s' =>
      match digit_of c with
      | Some d => parse_digits s' (10 * acc + d)
      | None => None
      end
  end.

Definition parse_nat (s : string) : option nat :=
  match s with
  | EmptyString => None
  | _ => parse_digits s 0
  end.

Fixpoint split_on (sep : ascii) (s : string) : list string :=
  match s with
  | EmptyString => [EmptyString]
  | String c s' =>
      if Ascii.eqb c sep then EmptyString :: split_on sep s'
      else match split_on sep s' with
           | [] => [String c EmptyString]
           | hd :: tl => String c hd :: tl
           end
  end.

(* ===================================================================== *)
(** * Calendar dates *)
(* ===================================================================== *)

Record date := mkdate { year : nat; month : nat; day : nat }.

Definition date_leb (a b : date) : bool :=
  (year a <? year b)
  || ((year a =? year b)
      && ((month a <? month b)
          || ((month a =? month b) && (day a <=? day b)))).

Definition is_leap (y : nat) : bool :=
  ((y mod 4 =? 0) && negb (y mod 100 =? 0)) || (y mod 400 =? 0).

Definition days_in_month (y m : nat) : nat :=
  match m with
  | 1 | 3 | 5 | 7 | 8 | 10 | 12 => 31
  | 4 | 6 | 9 | 11 => 30
  | 2 => if is_leap y then 29 else 28
  | _ => 0
  end.

(** The day field of [strptime]: %d takes one or two digits, or a space
    and one digit. *)
Definition parse_day (s : string) : option nat :=
  match s with
  | String " " (String c EmptyString) => digit_of c
  | _ => if String.length s <=? 2 then parse_nat s else None
  end.

(** [datetime.strptime(s, "%Y-%m-%d").date()] on ASCII text: a year of
    four digits, a month of one or two digits, a day of one or two digits
    or of a space and a digit, that together name a day of the calendar;
    [None] stands for the [ValueError] it raises otherwise. *)
Definition strptime_ymd (s : string) : option date :=
  match split_on "-"%char s with
  | [ys; ms; ds] =>
      match parse_nat ys, parse_nat ms, parse_day ds with
      | Some y, Some m, Some d =>
          if (String.length ys =? 4) && (1 <=? y)
             && (String.length ms <=? 2) && (1 <=? m) && (m <=? 12)
             && (1 <=? d) && (d <=? days_in_month y m)
          then Some (mkdate y m d)
          else None
      | _, _, _ => None
      end
  | _ => None
  end.

Definition pad2 (n : nat) : string :=
  if n <? 10 then ("0" ++ str_of_nat n)%string else str_of_nat n.

Definition pad4 (n : nat) : string :=
  if n <? 10 then ("000" ++ str_of_nat n)%string
  else if n <? 100 then ("00" ++ str_of_nat n)%string
  else if n <? 1000 then ("0" ++ str_of_nat n)%string
  else str_of_nat n.

(** [date.isoformat()]. *)
Definition isoformat (d : date) : string :=
  (pad4 (year d) ++ "-" ++ pad2 (month d) ++ "-" ++ pad2 (day d))%string.

(** Timestamps ([datetime], [CURRENT_TIMESTAMP]) are readings of the
    world's clock. *)
Definition datetime := nat.

(* ===================================================================== *)
(** * Python values, exceptions and computations *)
(* ===================================================================== *)

(** What a row, a response payload or a JSON document is made of. *)
Inductive PyVal : Type :=
| VNone
| VBool (b : bool)
| VInt (n : Z)
| VDecimal (d : Decimal)
| VFloat (x : Q)
| VStr (s : string)
| VDate (d : date)
| VDateTime (t : datetime)
| VList (items : list PyVal)
| VDict (items : list (string * PyVal)).

Inductive PyExc : Type :=
| ValueError (msg : string)
| TypeError (msg : string)
| ZeroDivisionError (msg : string)
| ValidationError (msg : string)
| OperationalError (msg : string)
| DataError (msg : string)
| IntegrityError (msg : string).

(** [str(e)]. *)
Definition exc_message (e : PyExc) : string :=
  match e with
  | ValueError m | TypeError m | ZeroDivisionError m | ValidationError m
  | OperationalError m | DataError m | IntegrityError m => m
  end.

Inductive Py (A : Type) : Type :=
| Return (a : A)
| Raise (e : PyExc).

Arguments Return {A} a.
Arguments Raise {A} e.

Definition is_raise {A} (r : Py A) : bool :=
  match r with Raise _ => true | Return _ => false end.

(** [convert_for_json] of portfolio_operations.py. *)
Fixpoint convert_for_json (obj : PyVal) : PyVal :=
  match obj with
  | VDict items =>
      VDict (map (fun kv => match kv with
                            | (k, v) => (k, convert_for_json v)
                            end) items)
  | VList items => VList (map convert_for_json items)
  | VDecimal d => VFloat d
  | VDate d => VStr (isoformat d)
  | VDateTime t => VStr (str_of_nat t)
  | other => other
  end.

Definition opt_val {A} (f : A -> PyVal) (o : option A) : PyVal :=
  match o with Some a => f a | None => VNone end.

(* ===================================================================== *)
(** * The two tables *)
(* ===================================================================== *)

(** A row of [transactions], with the columns the INSERT of
    [TransactionCRUD.create_transaction] names and the bookkeeping ones. *)
Module Transaction.

Record row := mk {
  id : nat;
  ticker : string;
  transaction_type : string;
  quantity : Decimal;
  cost_per_share : Decimal;
  currency : string;
  transaction_date : date;
  commission : option Decimal;
  commission_currency : option string;
  drip_confirmed : bool;
  is_fractional : bool;
  fractional_multiplier : Decimal;
  notes : option string;
  created_at : datetime;
  updated_at : datetime
}.

(** The row as RealDictCursor hands it to Python. *)
Definition to_dict (r : row) : PyVal :=
  VDict [ ("id", VStr (str_of_nat (id r)));
          ("ticker", VStr (ticker r));
          ("transaction_type", VStr (transaction_type r));
          ("quantity", VDecimal (quantity r));
          ("cost_per_share", VDecimal (cost_per_share r));
          ("currency", VStr (currency r));
          ("transaction_date", VDate (transaction_date r));
          ("commission", opt_val VDecimal (commission r));
          ("commission_currency", opt_val VStr (commission_currency r));
          ("drip_confirmed", VBool (drip_confirmed r));
          ("is_fractional", VBool (is_fractional r));
          ("fractional_multiplier", VDecimal (fractional_multiplier r));
          ("notes", opt_val VStr (notes r));
          ("created_at", VDateTime (created_at r));
          ("updated_at", VDateTime (updated_at r)) ].

End Transaction.

(** A row of [positions]. *)
Module Position.

Record row := mk {
  ticker : string;
  current_quantity : Decimal;
  avg_cost_per_share : Decimal;
  total_cost_basis : Decimal;
  current_price : option Decimal;
  current_market_value : option Decimal;
  unrealized_gain_loss : option Decimal;
  last_price_update : option datetime;
  primary_currency : string;
  updated_at : datetime
}.

Definition to_dict (r : row) : PyVal :=
  VDict [ ("ticker", VStr (ticker r));
          ("current_quantity", VDecimal (current_quantity r));
          ("avg_cost_per_share", VDecimal (avg_cost_per_share r));
          ("total_cost_basis", VDecimal (total_cost_basis r));
          ("current_price", opt_val VDecimal (current_price r));
          ("current_market_value", opt_val VDecimal (current_market_value r));
          ("unrealized_gain_loss", opt_val VDecimal (unrealized_gain_loss r));
          ("last_price_update", opt_val VDateTime (last_price_update r));
          ("primary_currency", VStr (primary_currency r));
          ("updated_at", VDateTime (updated_at r)) ].

End Position.

Record Tables := mkTables {
  transactions : list Transaction.row;
  positions : list Position.row;
  next_id : nat
}.

(** The world a call runs in: the database, the clock, and which of the
    coming connection attempts fail ([true]: the attempt raises). *)
Record World := mkWorld {
  tables : Tables;
  clock : datetime;
  outages : list bool
}.

(* ===================================================================== *)
(** * Computations: state and exceptions *)
(* ===================================================================== *)

Definition M (A : Type) : Type := World -> Py A * World.

Definition ret {A} (a : A) : M A := fun w => (Return a, w).

Definition raise {A} (e : PyExc) : M A := fun w => (Raise e, w).

Definition bind {A B} (m : M A) (k : A -> M B) : M B :=
  fun w =>
    match m w with
    | (Return a, w') => k a w'
    | (Raise e, w') => (Raise e, w')
    end.

(** [try: body except Exception as e: handler(e)]. *)
Definition try_except {A} (body : M A) (handler : PyExc -> M A) : M A :=
  fun w =>
    match body w with
    | (Return a, w') => (Return a, w')
    | (Raise e, w') => handler e w'
    end.

(** [try: body except Exception as e: logger.error(...); raise]. *)
Definition log_and_reraise {A} (body : M A) : M A :=
  try_except body (fun e => raise e).

Definition lift {A} (r : Py A) : M A := fun w => (r, w).

(** [a / b] on floats: dividing by zero raises. *)
Definition py_div (a b : Q) : M Q :=
  if Qeq_bool b 0 then raise (ZeroDivisionError "float division by zero")
  else ret (a / b)%Q.

Declare Scope py_scope.
Delimit Scope py_scope with py.

Notation "x <- c1 ;; c2" := (bind c1 (fun x => c2))
  (at level 61, c1 at next level, right associativity) : py_scope.
Notation "c1 ;; c2" := (bind c1 (fun _ => c2))
  (at level 61, right associativity) : py_scope.

Local Open Scope py_scope.

(** [for x in xs: body(x)]. *)
Fixpoint for_each {A} (xs : list A) (body : A -> M unit) : M unit :=
  match xs with
  | [] => ret tt
  | x :: rest => body x ;; for_each rest body
  end.

(** A SQL statement: it reads the current timestamp and the tables, and
    either fails, leaving the tables alone, or yields a result and the
    tables it leaves. *)
Definition Statement (A : Type) : Type := datetime -> Tables -> Py (A * Tables).

(** Whether the next connection attempt succeeds. *)
Definition connects (w : World) : bool :=
  match outages w with
  | true :: _ => false
  | _ => true
  end.

(** [DatabaseManager.get_connection] around one [cursor.execute]: connect
    (which may fail), run the statement, commit on success and roll back on
    an exception. *)
Definition with_connection {A} (stmt : Statement A) : M A :=
  fun w =>
    if connects w then
      match stmt (clock w) (tables w) with
      | Return (a, t') =>
          (Return a, mkWorld t' (S (clock w)) (tl (outages w)))
      | Raise e =>
          (Raise e, mkWorld (tables w) (S (clock w)) (tl (outages w)))
      end
    else
      (Raise (OperationalError "connection failed"),
       mkWorld (tables w) (clock w) (tl (outages w))).

(** [DatabaseManager.execute_query]: the rows the statement returns. *)
Definition execute_query {A} (stmt : Statement A) : M A :=
  log_and_reraise (with_connection stmt).

(** [DatabaseManager.execute_command]: the number of rows affected. *)
Definition execute_command (stmt : Statement nat) : M nat :=
  log_and_reraise (with_connection stmt).

(** [ORDER BY]: a stable insertion sort by a "comes no later" test. *)
Fixpoint insert_by {A} (le : A -> A -> bool) (x : A) (l : list A) : list A :=
  match l with
  | [] => [x]
  | y :: l' => if le x y then x :: l else y :: insert_by le x l'
  end.

Definition order_by {A} (le : A -> A -> bool) (l : list A) : list A :=
  fold_right (insert_by le) [] l.

(** The values of a column, each once.  They are listed here as they
    first appear; the order in which a [SELECT DISTINCT] or a [GROUP BY]
    without ORDER BY returns them is not this one but whatever the server
    chooses (the section variable [unordered], below). *)
Fixpoint distinct (l : list string) : list string :=
  match l with
  | [] => []
  | x :: rest =>
      x :: filter (fun y => negb (String.eqb x y)) (distinct rest)
  end.

(* ===================================================================== *)
(** * The stored function [recalculate_position] *)
(* ===================================================================== *)

(** The Python code calls [SELECT recalculate_position(%s)] and relies on
    the triggers of [transactions]; both are declared in SQL that is not
    among the sources.  What follows is what the specification says of
    them (sections 3, 4.1 and 4.2), and what test_db_setup.py expects of
    the trigger: a position appears with the first transaction of a ticker
    and goes with the last. *)

(** Modelled from the spec: the running totals of the fold of section 4.1
    (the SQL function is not among the sources), and whether a sale ever
    took the quantity below zero. *)
Record Running := mkRunning {
  run_quantity : Decimal;
  run_cost_basis : Decimal;
  run_inconsistent : bool
}.

(** Modelled from the spec: the snapshot one recalculation derives for a
    ticker (the SQL function is not among the sources). *)
Record Snapshot := mkSnapshot {
  snap_quantity : Decimal;
  snap_avg_cost : Decimal;
  snap_cost_basis : Decimal;
  snap_currency : string;
  snap_inconsistent : bool
}.

(** The shares a row stands for: [quantity * fractional_multiplier], as
    in the log line of [create_transaction]. *)
Definition effective_shares (t : Transaction.row) : Decimal :=
  (Transaction.quantity t * Transaction.fractional_multiplier t)%Q.

(** Modelled from the spec: the commission that enters the cost basis of
    a purchase, zero when the column is NULL. *)
Definition commission_or_zero (t : Transaction.row) : Decimal :=
  match Transaction.commission t with Some c => c | None => 0%Q end.

(** Modelled from the spec: the average cost per share of section 4.1,
    [cost_basis / quantity] while the quantity is positive, else zero. *)
Definition running_avg_cost (acc : Running) : Decimal :=
  if Qlt_bool 0 (run_quantity acc)
  then (run_cost_basis acc / run_quantity acc)%Q
  else 0%Q.

(** Modelled from the spec: the split ratio of a SPLIT row, which the spec
    leaves to the implementer (section 9); here the row's [quantity] over
    its [cost_per_share] (2 and 1 for a two-for-one split), and no split
    when [cost_per_share] is zero. *)
Definition split_ratio (t : Transaction.row) : Decimal :=
  if Qeq_bool (Transaction.cost_per_share t) 0 then 1%Q
  else (Transaction.quantity t / Transaction.cost_per_share t)%Q.

(** Modelled from the spec: one step of the fold of section 4.1 (the SQL
    function is not among the sources).  BUY adds the effective shares and
    their cost plus commission; SELL removes the effective shares at the
    running average cost and flags a quantity that went negative; SPLIT
    scales the quantity and keeps the cost basis; DIVIDEND changes
    nothing. *)
Definition apply_transaction (acc : Running) (t : Transaction.row) : Running :=
  let eff := effective_shares t in
  if String.eqb (Transaction.transaction_type t) "BUY" then
    mkRunning (run_quantity acc + eff)%Q
              (run_cost_basis acc
               + (eff * Transaction.cost_per_share t + commission_or_zero t))%Q
              (run_inconsistent acc)
  else if String.eqb (Transaction.transaction_type t) "SELL" then
    let q := (run_quantity acc - eff)%Q in
    mkRunning q
              (run_cost_basis acc - eff * running_avg_cost acc)%Q
              (run_inconsistent acc || Qlt_bool q 0)
  else if String.eqb (Transaction.transaction_type t) "SPLIT" then
    mkRunning (run_quantity acc * split_ratio t)%Q
              (run_cost_basis acc)
              (run_inconsistent acc)
  else acc.

(** Modelled from the spec: the order of the fold, by [transaction_date]
    ascending, ties in insertion order. *)
Definition chronological (txs : list Transaction.row) : list Transaction.row :=
  order_by (fun a b => date_leb (Transaction.transaction_date a)
                                (Transaction.transaction_date b)) txs.

(** Modelled from the spec: the Position Recalculation Engine of section
    4.1, a fold from scratch over a ticker's transactions.  [None] is the
    "ticker not found among transactions" condition. *)
Definition recalculate (txs : list Transaction.row) : option Snapshot :=
  match chronological txs with
  | [] => None
  | (first :: _) as sorted =>
      let acc := fold_left apply_transaction sorted (mkRunning 0 0 false) in
      Some (mkSnapshot (run_quantity acc)
                       (running_avg_cost acc)
                       (run_cost_basis acc)
                       (Transaction.currency first)
                       (run_inconsistent acc))
  end.

(** The rows of one ticker, in insertion order. *)
Definition transactions_of (p_ticker : string) (t : Tables)
  : list Transaction.row :=
  filter (fun r => String.eqb (Transaction.ticker r) p_ticker) (transactions t).

(** Whether the ticker has a row in [positions]. *)
Definition has_position (p_ticker : string) (ps : list Position.row) : bool :=
  existsb (fun p => String.eqb (Position.ticker p) p_ticker) ps.

(** [current_quantity * current_price], NULL without a price. *)
Definition market_value (q : Decimal) (price : option Decimal)
  : option Decimal :=
  match price with Some p => Some (q * p)%Q | None => None end.

(** [current_quantity * current_price - total_cost_basis], NULL without a
    price. *)
Definition gain_loss (q cost_basis : Decimal) (price : option Decimal)
  : option Decimal :=
  match price with Some p => Some (q * p - cost_basis)%Q | None => None end.

(** Modelled from the spec: writing a snapshot over an existing row.  The
    engine's fields are replaced; the externally supplied price and its
    timestamp stay, and the two market fields follow the new quantity and
    cost basis, as the invariant of section 3 asks. *)
Definition refresh_position (s : Snapshot) (p : Position.row) : Position.row :=
  Position.mk (Position.ticker p)
              (snap_quantity s) (snap_avg_cost s) (snap_cost_basis s)
              (Position.current_price p)
              (market_value (snap_quantity s) (Position.current_price p))
              (gain_loss (snap_quantity s) (snap_cost_basis s)
                         (Position.current_price p))
              (Position.last_price_update p)
              (snap_currency s)
              (Position.updated_at p).

(** Modelled from the spec: a position row made for the first time, with
    no price and so no market fields. *)
Definition new_position (p_ticker : string) (s : Snapshot) (now : datetime)
  : Position.row :=
  Position.mk p_ticker
              (snap_quantity s) (snap_avg_cost s) (snap_cost_basis s)
              None None None None
              (snap_currency s)
              now.

(** Modelled from the spec: the Position Store's upsert.  A row is made
    the first time a recalculation yields a nonzero quantity, and
    refreshed from then on. *)
Definition upsert_position (p_ticker : string) (s : Snapshot) (now : datetime)
    (ps : list Position.row) : list Position.row :=
  if has_position p_ticker ps then
    map (fun p => if String.eqb (Position.ticker p) p_ticker
                  then refresh_position s p else p) ps
  else if Qeq_bool (snap_quantity s) 0 then ps
  else ps ++ [new_position p_ticker s now].

(** Modelled from the spec: the removal of a ticker's position, which the
    trigger does when the last transaction of the ticker is deleted
    (test_db_setup.py checks it); the SQL is not among the sources. *)
Definition delete_position (p_ticker : string) (ps : list Position.row)
  : list Position.row :=
  filter (fun p => negb (String.eqb (Position.ticker p) p_ticker)) ps.

(** Modelled from the spec: the stored function [recalculate_position]
    (sections 4.1 and 4.2), which the sources only call.  It reads the
    ticker's transactions and writes the ticker's position; with no
    transaction left the position goes, as test_db_setup.py expects of the
    trigger. *)
Definition sql_recalculate_position (p_ticker : string) (now : datetime)
    (t : Tables) : Tables :=
  match recalculate (transactions_of p_ticker t) with
  | None =>
      mkTables (transactions t) (delete_position p_ticker (positions t))
               (next_id t)
  | Some s =>
      mkTables (transactions t) (upsert_position p_ticker s now (positions t))
               (next_id t)
  end.

(** Modelled from the spec: the row trigger [trigger_recalculate_position]
    on [transactions], run inside the statement that fired it, for each
    ticker the statement touched. *)
Definition trigger_recalculate_position (tickers : list string)
    (now : datetime) (t : Tables) : Tables :=
  fold_left (fun acc tk => sql_recalculate_position tk now acc) tickers t.

(* ===================================================================== *)
(** * The pydantic models of connection.py *)
(* ===================================================================== *)

(** [Field(..., max_length=20)]: at most 20 characters. *)
Definition max_length_20 (s : string) : bool := char_length s <=? 20.

Module TransactionCreate.

Record t := mk {
  ticker : string;
  transaction_type : string;
  quantity : Decimal;
  cost_per_share : Decimal;
  currency : string;
  transaction_date : date;
  commission : option Decimal;
  commission_currency : option string;
  drip_confirmed : bool;
  is_fractional : bool;
  fractional_multiplier : Decimal;
  notes : option string
}.

(** What constructing the model checks: the only constraint a field
    carries is the length of [ticker]. *)
Definition validate (x : t) : Py t :=
  if max_length_20 (ticker x) then Return x
  else Raise (ValidationError "ticker: ensure this value has at most 20 characters").

End TransactionCreate.

(** Every field is optional; [None] is a field that was not set or was set
    to [None]: [update_transaction] skips both. *)
Module TransactionUpdate.

Record t := mk {
  ticker : option string;
  transaction_type : option string;
  quantity : option Decimal;
  cost_per_share : option Decimal;
  currency : option string;
  transaction_date : option date;
  commission : option Decimal;
  commission_currency : option string;
  drip_confirmed : option bool;
  is_fractional : option bool;
  fractional_multiplier : option Decimal;
  notes : option string
}.

Definition validate (x : t) : Py t :=
  match ticker x with
  | Some s =>
      if max_length_20 s then Return x
      else Raise (ValidationError "ticker: ensure this value has at most 20 characters")
  | None => Return x
  end.

End TransactionUpdate.

Module PositionUpdate.

Record t := mk {
  ticker : string;
  current_price : Decimal;
  current_market_value : option Decimal;
  unrealized_gain_loss : option Decimal;
  last_price_update : option datetime
}.

Definition validate (x : t) : Py t :=
  if max_length_20 (ticker x) then Return x
  else Raise (ValidationError "ticker: ensure this value has at most 20 characters").

End PositionUpdate.

(* ===================================================================== *)
(** * The input and response models of portfolio_operations.py *)
(* ===================================================================== *)

Module CreateTransactionInput.

Record t := mk {
  ticker : string;
  transaction_type : string;
  quantity : Q;
  cost_per_share : Q;
  currency : string;
  transaction_date : string;
  commission : option Q;
  commission_currency : option string;
  drip_confirmed : bool;
  notes : option string
}.

End CreateTransactionInput.

Module UpdateTransactionInput.

Record t := mk {
  transaction_id : string;
  ticker : option string;
  transaction_type : option string;
  quantity : option Q;
  cost_per_share : option Q;
  currency : option string;
  transaction_date : option string;
  commission : option Q;
  commission_currency : option string;
  drip_confirmed : option bool;
  notes : option string
}.

End UpdateTransactionInput.

Module UpdateMarketDataInput.

Record t := mk {
  ticker : string;
  current_price : Q;
  last_price_update : option string
}.

End UpdateMarketDataInput.

Module SearchTransactionsInput.

Record t := mk {
  ticker : option string;
  start_date : option string;
  end_date : option string;
  transaction_type : option string;
  min_quantity : option Q;
  max_quantity : option Q
}.

End SearchTransactionsInput.

Module OperationResponse.

Record t := mk {
  success : bool;
  message : string;
  data : option PyVal
}.

End OperationResponse.

(** One assignment of the SET list that [update_transaction] builds. *)
Inductive Assignment : Type :=
| Set_ticker (v : string)
| Set_transaction_type (v : string)
| Set_quantity (v : Decimal)
| Set_cost_per_share (v : Decimal)
| Set_currency (v : string)
| Set_transaction_date (v : date)
| Set_commission (v : Decimal)
| Set_commission_currency (v : string)
| Set_drip_confirmed (v : bool)
| Set_is_fractional (v : bool)
| Set_fractional_multiplier (v : Decimal)
| Set_notes (v : string).

(** One condition of the WHERE clause that [search_transactions] builds. *)
Inductive Condition : Type :=
| Ticker_eq (v : string)
| Date_ge (v : date)
| Date_le (v : date)
| Type_eq (v : string)
| Abs_quantity_ge (v : Decimal)
| Abs_quantity_le (v : Decimal).

(** The one row the aggregate query of [get_performance_metrics] returns. *)
Record Aggregates := mkAggregates {
  agg_total_positions : nat;
  agg_winning_positions : nat;
  agg_losing_positions : nat;
  agg_avg_unrealized_pnl : option Decimal;
  agg_best_performer : option Decimal;
  agg_worst_performer : option Decimal;
  agg_total_market_value : option Decimal;
  agg_total_invested : option Decimal
}.

(** That row with the two entries Python adds to it. *)
Record Metrics := mkMetrics {
  aggregates : Aggregates;
  total_return_percentage : Q;
  win_rate : Q
}.

(** The [metrics] entry of [get_ticker_analysis]. *)
Record TickerMetrics := mkTickerMetrics {
  total_bought : Q;
  total_sold : Q;
  net_quantity : Q;
  total_transactions : nat
}.

Record TickerAnalysis := mkTickerAnalysis {
  analysis_ticker : string;
  analysis_position : option Position.row;
  analysis_transactions : list Transaction.row;
  analysis_metrics : TickerMetrics
}.

(* ===================================================================== *)
(** * Sample schemas, requests and worlds *)
(* ===================================================================== *)

(** A table [transactions] that declares no constraint. *)
Definition no_constraints : Transaction.row -> bool := fun _ => true.

(** The labels of the enum types [transaction_type] and [currency_type]
    (database/test_db_setup.py, [expected_enums]). *)
Definition known_types : list string := ["BUY"; "SELL"; "DIVIDEND"; "SPLIT"].
Definition known_currencies : list string := ["USD"; "EUR"; "GBP"].

(** A table [transactions] whose columns [transaction_type] and [currency]
    have those enum types, and that declares nothing else. *)
Definition enum_check : Transaction.row -> bool :=
  fun r =>
    existsb (String.eqb (Transaction.transaction_type r)) known_types
    && existsb (String.eqb (Transaction.currency r)) known_currencies.

(** A view [portfolio_summary] that returns no row. *)
Definition no_summary_view : Tables -> list PyVal := fun _ => [].

(** A pydantic that refuses anything but a dict. *)
Definition reject_non_dict : PyVal -> Py PyVal :=
  fun _ => Raise (ValidationError "value is not a valid dict").

(** An ISO parser that accepts nothing. *)
Definition no_isoformat : string -> option datetime := fun _ => None.

(** Two servers: one returns the rows of a query without ORDER BY as they
    first appear in the table, the other the last first. *)
Definition first_seen_order : list string -> list string := fun l => l.
Definition last_seen_order : list string -> list string := @rev string.

(** An empty database, with every connection attempt succeeding. *)
Definition empty_world : World := mkWorld (mkTables [] [] 1) 0 [].

Definition bad_date_request : CreateTransactionInput.t :=
  CreateTransactionInput.mk "AAPL" "BUY" 10 150 "USD" "01/03/2024"
    None None false None.

Definition unknown_type_request : CreateTransactionInput.t :=
  CreateTransactionInput.mk "AAPL" "FOO" 10 150 "USD" "2024-03-01"
    None None false None.

Definition negative_quantity_request : CreateTransactionInput.t :=
  CreateTransactionInput.mk "AAPL" "SELL" (-5) 150 "USD" "2024-03-01"
    None None false None.

Definition buy_row (i : nat) (tk : string) (q price : Decimal) (d : date)
  : Transaction.row :=
  Transaction.mk i tk "BUY" q price "USD" d (Some 0%Q) None false false 1
    None i i.

Definition sell_row (i : nat) (tk : string) (q price : Decimal) (d : date)
  : Transaction.row :=
  Transaction.mk i tk "SELL" q price "USD" d (Some 0%Q) None false false 1
    None i i.

(** A ledger with two tickers and no position yet; the second connection
    attempt from now on fails, every other one succeeds. *)
Definition two_ticker_world : World :=
  mkWorld (mkTables [buy_row 1 "AAA" 10 100 (mkdate 2024 1 2);
                     buy_row 2 "BBB" 5 20 (mkdate 2024 1 3)]
                    [] 3)
          10 [false; true].

(** One position of one share that cost nothing and is quoted at 10. *)
Definition free_share_world : World :=
  mkWorld (mkTables [buy_row 1 "GIFT" 1 0 (mkdate 2024 1 2)]
                    [Position.mk "GIFT" 1 0 0 (Some 10%Q) (Some 10%Q)
                                 (Some 10%Q) (Some 5) "USD" 5]
                    2)
          10 [].

(** A ledger holding a sale recorded with a negative quantity and a small
    purchase. *)
Definition signed_world : World :=
  mkWorld (mkTables [sell_row 1 "AAPL" (-5) 150 (mkdate 2024 1 2);
                     buy_row 2 "AAPL" 2 140 (mkdate 2024 1 3)]
                    [] 3)
          10 [].

(** A ledger with one purchase and its position, not priced yet. *)
Definition one_buy_world : World :=
  mkWorld (mkTables [buy_row 1 "AAPL" 10 100 (mkdate 2024 1 2)]
                    [Position.mk "AAPL" 10 100 1000 None None None None
                                 "USD" 1]
                    2)
          10 [].

(* ===================================================================== *)
(** * The SQL statements the CRUD classes send *)
(* ===================================================================== *)

Section Portfolio.

Set Default Proof Using "Type".

(** What the table [transactions] demands of a row (NOT NULL, CHECK, the
    enum types of its columns): the schema is not among the sources, so it
    is a parameter.  The one demand the sources document, the enum type of
    [transaction_type], is stated where it is needed ([type_is_enum]). *)
Variable transactions_check : Transaction.row -> bool.

(** The view [portfolio_summary], declared in the same schema. *)
Variable portfolio_summary_view : Tables -> list PyVal.

(** What pydantic makes of a value that is not a dict when the field is
    [Optional[Dict[Any, Any]]]: it depends on the pydantic version. *)
Variable coerce_to_dict : PyVal -> Py PyVal.

(** [datetime.fromisoformat]; [None] is the [ValueError] it raises. *)
Variable fromisoformat : string -> option datetime.

(** The order in which the server returns the rows of a query that has no
    ORDER BY: SQL leaves it open, so it is a parameter.  Nothing is assumed
    of it here; a statement that needs the rows to be the same rows says
    so. *)
Variable unordered : list string -> list string.

(** Proofs that do not concern the schema leave its parameters aside. *)
Ltac forget_schema :=
  try clear transactions_check; try clear portfolio_summary_view;
  try clear coerce_to_dict; try clear fromisoformat; try clear unordered.

(** A uuid parameter: text that does not denote an id makes the statement
    fail. *)
Definition uuid_of (s : string) : Py nat :=
  match parse_nat s with
  | Some n => Return n
  | None => Raise (DataError "invalid input syntax for type uuid")
  end.

Definition date_eqb (a b : date) : bool := date_leb a b && date_leb b a.

(** [ORDER BY transaction_date DESC, created_at DESC]. *)
Definition newest_first (a b : Transaction.row) : bool :=
  let da := Transaction.transaction_date a in
  let db := Transaction.transaction_date b in
  if date_eqb da db
  then Transaction.created_at b <=? Transaction.created_at a
  else date_leb db da.

(** [INSERT INTO transactions (...) VALUES (...) RETURNING id], with the
    parameter tuple held as a record. *)
Definition sql_insert_transaction (params : TransactionCreate.t)
  : Statement nat :=
  fun now t =>
    let r := Transaction.mk (next_id t)
               (TransactionCreate.ticker params)
               (TransactionCreate.transaction_type params)
               (TransactionCreate.quantity params)
               (TransactionCreate.cost_per_share params)
               (TransactionCreate.currency params)
               (TransactionCreate.transaction_date params)
               (TransactionCreate.commission params)
               (TransactionCreate.commission_currency params)
               (TransactionCreate.drip_confirmed params)
               (TransactionCreate.is_fractional params)
               (TransactionCreate.fractional_multiplier params)
               (TransactionCreate.notes params)
               now now in
    if transactions_check r then
      Return (Transaction.id r,
              trigger_recalculate_position [Transaction.ticker r] now
                (mkTables (transactions t ++ [r]) (positions t)
                          (S (next_id t))))
    else Raise (IntegrityError "new row violates a constraint of transactions").

(** [SELECT * FROM transactions WHERE id = %s]. *)
Definition sql_select_transaction_by_id (transaction_id : string)
  : Statement (list Transaction.row) :=
  fun _ t =>
    match uuid_of transaction_id with
    | Raise e => Raise e
    | Return n =>
        Return (filter (fun r => Transaction.id r =? n) (transactions t), t)
    end.

(** [SELECT * FROM transactions WHERE ticker = %s ORDER BY ...]. *)
Definition sql_select_transactions_by_ticker (p_ticker : string)
  : Statement (list Transaction.row) :=
  fun _ t => Return (order_by newest_first (transactions_of p_ticker t), t).

Definition assign (a : Assignment) (r : Transaction.row) : Transaction.row :=
  let '(Transaction.mk i tk ty q c cur d com comcur drip frac mult n cr up) := r in
  match a with
  | Set_ticker v => Transaction.mk i v ty q c cur d com comcur drip frac mult n cr up
  | Set_transaction_type v => Transaction.mk i tk v q c cur d com comcur drip frac mult n cr up
  | Set_quantity v => Transaction.mk i tk ty v c cur d com comcur drip frac mult n cr up
  | Set_cost_per_share v => Transaction.mk i tk ty q v cur d com comcur drip frac mult n cr up
  | Set_currency v => Transaction.mk i tk ty q c v d com comcur drip frac mult n cr up
  | Set_transaction_date v => Transaction.mk i tk ty q c cur v com comcur drip frac mult n cr up
  | Set_commission v => Transaction.mk i tk ty q c cur d (Some v) comcur drip frac mult n cr up
  | Set_commission_currency v => Transaction.mk i tk ty q c cur d com (Some v) drip frac mult n cr up
  | Set_drip_confirmed v => Transaction.mk i tk ty q c cur d com comcur v frac mult n cr up
  | Set_is_fractional v => Transaction.mk i tk ty q c cur d com comcur drip v mult n cr up
  | Set_fractional_multiplier v => Transaction.mk i tk ty q c cur d com comcur drip frac v n cr up
  | Set_notes v => Transaction.mk i tk ty q c cur d com comcur drip frac mult (Some v) cr up
  end.

(** [updated_at = CURRENT_TIMESTAMP]. *)
Definition touch (now : datetime) (r : Transaction.row) : Transaction.row :=
  let '(Transaction.mk i tk ty q c cur d com comcur drip frac mult n cr _) := r in
  Transaction.mk i tk ty q c cur d com comcur drip frac mult n cr now.

Definition apply_assignments (fields : list Assignment) (now : datetime)
    (r : Transaction.row) : Transaction.row :=
  touch now (fold_left (fun acc a => assign a acc) fields r).

(** [UPDATE transactions SET <fields>, updated_at = CURRENT_TIMESTAMP
    WHERE id = %s]. *)
Definition sql_update_transaction (fields : list Assignment)
    (transaction_id : string) : Statement nat :=
  fun now t =>
    match uuid_of transaction_id with
    | Raise e => Raise e
    | Return n =>
        let hit := fun r => Transaction.id r =? n in
        let old_rows := filter hit (transactions t) in
        let new_rows := map (apply_assignments fields now) old_rows in
        if forallb transactions_check new_rows then
          Return (List.length old_rows,
                  trigger_recalculate_position
                    (map Transaction.ticker old_rows
                     ++ map Transaction.ticker new_rows) now
                    (mkTables
                       (map (fun r => if hit r
                                      then apply_assignments fields now r
                                      else r) (transactions t))
                       (positions t) (next_id t)))
        else Raise (IntegrityError "new row violates a constraint of transactions")
    end.

(** [DELETE FROM transactions WHERE id = %s]. *)
Definition sql_delete_transaction (transaction_id : string) : Statement nat :=
  fun now t =>
    match uuid_of transaction_id with
    | Raise e => Raise e
    | Return n =>
        let hit := fun r => Transaction.id r =? n in
        let old_rows := filter hit (transactions t) in
        Return (List.length old_rows,
                trigger_recalculate_position
                  (map Transaction.ticker old_rows) now
                  (mkTables (filter (fun r => negb (hit r)) (transactions t))
                            (positions t) (next_id t)))
    end.

(** [SELECT * FROM positions WHERE ticker = %s]. *)
Definition sql_select_position_by_ticker (p_ticker : string)
  : Statement (list Position.row) :=
  fun _ t =>
    Return (filter (fun p => String.eqb (Position.ticker p) p_ticker)
                   (positions t), t).

Definition is_current (p : Position.row) : bool :=
  Qlt_bool 0 (Position.current_quantity p).

(** [SELECT * FROM positions WHERE current_quantity > 0 ORDER BY ticker]. *)
Definition sql_select_current_positions : Statement (list Position.row) :=
  fun _ t =>
    Return (order_by (fun a b => String.leb (Position.ticker a)
                                            (Position.ticker b))
                     (filter is_current (positions t)), t).

(** [SELECT * FROM portfolio_summary]. *)
Definition sql_select_portfolio_summary : Statement (list PyVal) :=
  fun _ t => Return (portfolio_summary_view t, t).

(** [UPDATE positions SET current_price = %s, current_market_value = %s,
    unrealized_gain_loss = %s, last_price_update = %s,
    updated_at = CURRENT_TIMESTAMP WHERE ticker = %s]. *)
Definition sql_update_position_market_data (price : Decimal)
    (value gain : option Decimal) (observed : datetime) (p_ticker : string)
  : Statement nat :=
  fun now t =>
    let hit := fun p => String.eqb (Position.ticker p) p_ticker in
    Return (List.length (filter hit (positions t)),
            mkTables (transactions t)
              (map (fun p =>
                      if hit p then
                        Position.mk (Position.ticker p)
                          (Position.current_quantity p)
                          (Position.avg_cost_per_share p)
                          (Position.total_cost_basis p)
                          (Some price) value gain (Some observed)
                          (Position.primary_currency p)
                          now
                      else p) (positions t))
              (next_id t)).

(** [SELECT recalculate_position(%s)]: one row holding the void result. *)
Definition sql_call_recalculate_position (p_ticker : string)
  : Statement (list PyVal) :=
  fun now t =>
    Return ([VDict [("recalculate_position", VNone)]],
            sql_recalculate_position p_ticker now t).

(** [SELECT DISTINCT ticker FROM transactions]. *)
Definition sql_select_distinct_tickers : Statement (list string) :=
  fun _ t =>
    Return (unordered (distinct (map Transaction.ticker (transactions t))), t).

(** SQL's SUM, MAX and MIN: NULL over no value. *)
Definition sql_sum (xs : list Q) : option Q :=
  match xs with [] => None | _ => Some (fold_left Qplus xs 0%Q) end.

Definition sql_avg (xs : list Q) : option Q :=
  match xs with
  | [] => None
  | _ => Some (fold_left Qplus xs 0%Q / inject_Z (Z.of_nat (List.length xs)))%Q
  end.

Definition sql_max (xs : list Q) : option Q :=
  match xs with
  | [] => None
  | x :: rest => Some (fold_left (fun m y => if Qle_bool m y then y else m) rest x)
  end.

Definition sql_min (xs : list Q) : option Q :=
  match xs with
  | [] => None
  | x :: rest => Some (fold_left (fun m y => if Qle_bool y m then y else m) rest x)
  end.

(** The non-NULL values of a nullable column or expression. *)
Fixpoint non_null {A} (xs : list (option A)) : list A :=
  match xs with
  | [] => []
  | Some x :: rest => x :: non_null rest
  | None :: rest => non_null rest
  end.

Definition gains (ps : list Position.row) : list Q :=
  non_null (map Position.unrealized_gain_loss ps).

(** The aggregates of [get_performance_metrics], over the positions with
    [current_quantity > 0]: COUNT( * ), the two conditional counts, AVG, MAX
    and MIN of [unrealized_gain_loss], SUM(current_quantity * current_price)
    and SUM(total_cost_basis). *)
Definition aggregates_of (t : Tables) : Aggregates :=
  let current := filter is_current (positions t) in
  mkAggregates
    (List.length current)
    (List.length (filter (fun g => Qlt_bool 0 g) (gains current)))
    (List.length (filter (fun g => Qlt_bool g 0) (gains current)))
    (sql_avg (gains current))
    (sql_max (gains current))
    (sql_min (gains current))
    (sql_sum (non_null
       (map (fun p => market_value (Position.current_quantity p)
                                   (Position.current_price p))
            current)))
    (sql_sum (map Position.total_cost_basis current)).

(** The aggregate query: always one row. *)
Definition sql_performance_metrics : Statement Aggregates :=
  fun _ t => Return (aggregates_of t, t).

Definition condition_holds (r : Transaction.row) (c : Condition) : bool :=
  match c with
  | Ticker_eq v => String.eqb (Transaction.ticker r) v
  | Date_ge v => date_leb v (Transaction.transaction_date r)
  | Date_le v => date_leb (Transaction.transaction_date r) v
  | Type_eq v => String.eqb (Transaction.transaction_type r) v
  | Abs_quantity_ge v => Qle_bool v (Qabs (Transaction.quantity r))
  | Abs_quantity_le v => Qle_bool (Qabs (Transaction.quantity r)) v
  end.

(** [SELECT * FROM transactions WHERE <conditions joined by AND, or 1=1>
    ORDER BY transaction_date DESC, created_at DESC]. *)
Definition sql_search_transactions (conditions : list Condition)
  : Statement (list Transaction.row) :=
  fun _ t =>
    Return (order_by newest_first
              (filter (fun r => forallb (condition_holds r) conditions)
                      (transactions t)), t).

(* ===================================================================== *)
(** * portfolio_crud.py *)
(* ===================================================================== *)

(** [datetime.now()]. *)
Definition datetime_now : M datetime := fun w => (Return (clock w), w).

(** [x.upper() if x else None]. *)
Definition upper_if_truthy (x : option string) : option string :=
  match x with
  | Some s => if str_truthy s then Some (upper s) else None
  | None => None
  end.

(** ** class TransactionCRUD *)

Definition TransactionCRUD_create_transaction
    (transaction : TransactionCreate.t) : M string :=
  let params :=
    TransactionCreate.mk
      (upper (TransactionCreate.ticker transaction))
      (upper (TransactionCreate.transaction_type transaction))
      (TransactionCreate.quantity transaction)
      (TransactionCreate.cost_per_share transaction)
      (upper (TransactionCreate.currency transaction))
      (TransactionCreate.transaction_date transaction)
      (TransactionCreate.commission transaction)
      (upper_if_truthy (TransactionCreate.commission_currency transaction))
      (TransactionCreate.drip_confirmed transaction)
      (TransactionCreate.is_fractional transaction)
      (TransactionCreate.fractional_multiplier transaction)
      (TransactionCreate.notes transaction) in
  log_and_reraise
    (transaction_id <- execute_query (sql_insert_transaction params) ;;
     ret (str_of_nat transaction_id)).

Definition TransactionCRUD_get_transaction_by_id (transaction_id : string)
  : M (option Transaction.row) :=
  log_and_reraise
    (results <- execute_query (sql_select_transaction_by_id transaction_id) ;;
     ret (hd_error results)).

Definition TransactionCRUD_get_transactions_by_ticker (p_ticker : string)
  : M (list Transaction.row) :=
  log_and_reraise
    (execute_query (sql_select_transactions_by_ticker (upper p_ticker))).

Definition assignment_of {A} (f : A -> Assignment) (value : option A)
  : list Assignment :=
  match value with Some v => [f v] | None => [] end.

(** The loop over [updates.dict(exclude_unset=True).items()]: a field
    whose value is not [None] yields an assignment, upper-cased for the
    four code fields. *)
Definition update_fields_of (updates : TransactionUpdate.t)
  : list Assignment :=
  assignment_of (fun v => Set_ticker (upper v)) (TransactionUpdate.ticker updates)
  ++ assignment_of (fun v => Set_transaction_type (upper v))
       (TransactionUpdate.transaction_type updates)
  ++ assignment_of Set_quantity (TransactionUpdate.quantity updates)
  ++ assignment_of Set_cost_per_share (TransactionUpdate.cost_per_share updates)
  ++ assignment_of (fun v => Set_currency (upper v))
       (TransactionUpdate.currency updates)
  ++ assignment_of Set_transaction_date
       (TransactionUpdate.transaction_date updates)
  ++ assignment_of Set_commission (TransactionUpdate.commission updates)
  ++ assignment_of (fun v => Set_commission_currency (upper v))
       (TransactionUpdate.commission_currency updates)
  ++ assignment_of Set_drip_confirmed (TransactionUpdate.drip_confirmed updates)
  ++ assignment_of Set_is_fractional (TransactionUpdate.is_fractional updates)
  ++ assignment_of Set_fractional_multiplier
       (TransactionUpdate.fractional_multiplier updates)
  ++ assignment_of Set_notes (TransactionUpdate.notes updates).

Definition TransactionCRUD_update_transaction (transaction_id : string)
    (updates : TransactionUpdate.t) : M bool :=
  let update_fields := update_fields_of updates in
  match update_fields with
  | [] => ret false
  | _ =>
      log_and_reraise
        (rows_affected <-
           execute_command (sql_update_transaction update_fields transaction_id) ;;
         ret (0 <? rows_affected))
  end.

Definition TransactionCRUD_delete_transaction (transaction_id : string)
  : M bool :=
  log_and_reraise
    (rows_affected <- execute_command (sql_delete_transaction transaction_id) ;;
     ret (0 <? rows_affected)).

(** ** class PositionCRUD *)

Definition PositionCRUD_get_position_by_ticker (p_ticker : string)
  : M (option Position.row) :=
  log_and_reraise
    (results <- execute_query (sql_select_position_by_ticker (upper p_ticker)) ;;
     ret (hd_error results)).

Definition PositionCRUD_get_all_positions : M (list Position.row) :=
  log_and_reraise (execute_query sql_select_current_positions).

Definition PositionCRUD_get_portfolio_summary : M PyVal :=
  log_and_reraise
    (results <- execute_query sql_select_portfolio_summary ;;
     ret (match results with r :: _ => r | [] => VDict [] end)).

Definition PositionCRUD_update_position_market_data
    (update : PositionUpdate.t) : M bool :=
  position <- PositionCRUD_get_position_by_ticker (PositionUpdate.ticker update) ;;
  let current_market_value :=
    match position with
    | Some p =>
        Some (Position.current_quantity p * PositionUpdate.current_price update)%Q
    | None => None
    end in
  let unrealized_gain_loss :=
    match position with
    | Some p =>
        Some (Position.current_quantity p * PositionUpdate.current_price update
              - Position.total_cost_basis p)%Q
    | None => None
    end in
  observed <- match PositionUpdate.last_price_update update with
              | Some t => ret t
              | None => datetime_now
              end ;;
  log_and_reraise
    (rows_affected <-
       execute_command
         (sql_update_position_market_data
            (PositionUpdate.current_price update)
            current_market_value unrealized_gain_loss observed
            (upper (PositionUpdate.ticker update))) ;;
     ret (0 <? rows_affected)).

Definition PositionCRUD_recalculate_position (p_ticker : string) : M bool :=
  log_and_reraise
    (execute_query (sql_call_recalculate_position (upper p_ticker)) ;;
     ret true).

Definition PositionCRUD_recalculate_all_positions : M bool :=
  log_and_reraise
    (tickers <- execute_query sql_select_distinct_tickers ;;
     for_each tickers
       (fun row => PositionCRUD_recalculate_position row ;; ret tt) ;;
     ret true).

(** ** class PortfolioCRUD *)

Definition quantities_of_type (ty : string) (txs : list Transaction.row)
  : list Q :=
  map Transaction.quantity
      (filter (fun t => String.eqb (Transaction.transaction_type t) ty) txs).

Definition PortfolioCRUD_get_ticker_analysis (p_ticker : string)
  : M TickerAnalysis :=
  log_and_reraise
    (position <- PositionCRUD_get_position_by_ticker p_ticker ;;
     txs <- TransactionCRUD_get_transactions_by_ticker p_ticker ;;
     let bought := py_sum (quantities_of_type "BUY" txs) in
     let sold := py_sum (quantities_of_type "SELL" txs) in
     ret (mkTickerAnalysis (upper p_ticker) position txs
            (mkTickerMetrics bought sold (bought - sold)%Q (List.length txs)))).

Definition PortfolioCRUD_get_performance_metrics : M Metrics :=
  log_and_reraise
    (result <- execute_query sql_performance_metrics ;;
     total_return <-
       match agg_total_invested result with
       | Some invested =>
           if decimal_truthy invested && Qlt_bool 0 invested then
             match agg_total_market_value result with
             | Some value =>
                 ratio <- py_div (value - invested) invested ;;
                 ret (ratio * 100)%Q
             | None =>
                 raise (TypeError "float() argument must be a string or a real number, not NoneType")
             end
           else ret 0%Q
       | None => ret 0%Q
       end ;;
     rate <-
       (if 0 <? agg_total_positions result then
          ratio <- py_div (inject_Z (Z.of_nat (agg_winning_positions result)))
                          (inject_Z (Z.of_nat (agg_total_positions result))) ;;
          ret (ratio * 100)%Q
        else ret 0%Q) ;;
     ret (mkMetrics result total_return rate)).

Definition condition_of {A} (truthy : A -> bool) (f : A -> Condition)
    (value : option A) : list Condition :=
  match value with
  | Some v => if truthy v then [f v] else []
  | None => []
  end.

Definition PortfolioCRUD_search_transactions
    (p_ticker : option string) (start_date end_date : option date)
    (transaction_type : option string)
    (min_quantity max_quantity : option Decimal)
  : M (list Transaction.row) :=
  let conditions :=
    condition_of str_truthy (fun v => Ticker_eq (upper v)) p_ticker
    ++ condition_of (fun _ => true) Date_ge start_date
    ++ condition_of (fun _ => true) Date_le end_date
    ++ condition_of str_truthy (fun v => Type_eq (upper v)) transaction_type
    ++ condition_of decimal_truthy Abs_quantity_ge min_quantity
    ++ condition_of decimal_truthy Abs_quantity_le max_quantity in
  log_and_reraise (execute_query (sql_search_transactions conditions)).

(* ===================================================================== *)
(** * portfolio_operations.py *)
(* ===================================================================== *)

(** Constructing an [OperationResponse]: [success] and [message] are what
    they are; [data] has to be [None] or a dict. *)
Definition OperationResponse_new (success : bool) (message : string)
    (data : option PyVal) : M OperationResponse.t :=
  match data with
  | None => ret (OperationResponse.mk success message None)
  | Some (VDict items) =>
      ret (OperationResponse.mk success message (Some (VDict items)))
  | Some other =>
      match coerce_to_dict other with
      | Return d => ret (OperationResponse.mk success message (Some d))
      | Raise e => raise e
      end
  end.

(** [datetime.strptime(s, "%Y-%m-%d").date()]. *)
Definition parse_date (s : string) : M date :=
  match strptime_ymd s with
  | Some d => ret d
  | None => raise (ValueError "time data does not match format %Y-%m-%d")
  end.

(** [Decimal(str(x)) if x else None]. *)
Definition decimal_if_truthy (x : option Q) : option Decimal :=
  match x with
  | Some v => if decimal_truthy v then Some v else None
  | None => None
  end.

Definition create_transaction (input_data : CreateTransactionInput.t)
  : M OperationResponse.t :=
  try_except
    (transaction_date <-
       parse_date (CreateTransactionInput.transaction_date input_data) ;;
     transaction <-
       lift (TransactionCreate.validate
               (TransactionCreate.mk
                  (CreateTransactionInput.ticker input_data)
                  (CreateTransactionInput.transaction_type input_data)
                  (CreateTransactionInput.quantity input_data)
                  (CreateTransactionInput.cost_per_share input_data)
                  (CreateTransactionInput.currency input_data)
                  transaction_date
                  (decimal_if_truthy (CreateTransactionInput.commission input_data))
                  (CreateTransactionInput.commission_currency input_data)
                  (CreateTransactionInput.drip_confirmed input_data)
                  false 1%Q
                  (CreateTransactionInput.notes input_data))) ;;
     transaction_id <- TransactionCRUD_create_transaction transaction ;;
     OperationResponse_new true
       ("Successfully created transaction " ++ transaction_id)%string
       (Some (VDict [("transaction_id", VStr transaction_id)])))
    (fun e =>
       OperationResponse_new false
         ("Error creating transaction: " ++ exc_message e)%string None).

Definition get_transaction (transaction_id : string) : M OperationResponse.t :=
  try_except
    (transaction <- TransactionCRUD_get_transaction_by_id transaction_id ;;
     match transaction with
     | Some r =>
         OperationResponse_new true "Transaction retrieved successfully"
           (Some (convert_for_json (Transaction.to_dict r)))
     | None =>
         OperationResponse_new false
           ("Transaction " ++ transaction_id ++ " not found")%string None
     end)
    (fun e =>
       OperationResponse_new false
         ("Error getting transaction: " ++ exc_message e)%string None).

Definition parse_optional_date (s : option string) : M (option date) :=
  match s with
  | Some v => d <- parse_date v ;; ret (Some d)
  | None => ret None
  end.

Definition update_transaction (input_data : UpdateTransactionInput.t)
  : M OperationResponse.t :=
  let transaction_id := UpdateTransactionInput.transaction_id input_data in
  try_except
    (transaction_date <-
       parse_optional_date (UpdateTransactionInput.transaction_date input_data) ;;
     updates <-
       lift (TransactionUpdate.validate
               (TransactionUpdate.mk
                  (UpdateTransactionInput.ticker input_data)
                  (UpdateTransactionInput.transaction_type input_data)
                  (UpdateTransactionInput.quantity input_data)
                  (UpdateTransactionInput.cost_per_share input_data)
                  (UpdateTransactionInput.currency input_data)
                  transaction_date
                  (UpdateTransactionInput.commission input_data)
                  (UpdateTransactionInput.commission_currency input_data)
                  (UpdateTransactionInput.drip_confirmed input_data)
                  None None
                  (UpdateTransactionInput.notes input_data))) ;;
     success <- TransactionCRUD_update_transaction transaction_id updates ;;
     if success : bool then
       OperationResponse_new true
         ("Successfully updated transaction " ++ transaction_id)%string None
     else
       OperationResponse_new false
         ("Transaction " ++ transaction_id
          ++ " not found or no changes made")%string None)
    (fun e =>
       OperationResponse_new false
         ("Error updating transaction: " ++ exc_message e)%string None).

Definition delete_transaction (transaction_id : string)
  : M OperationResponse.t :=
  try_except
    (success <- TransactionCRUD_delete_transaction transaction_id ;;
     if success : bool then
       OperationResponse_new true
         ("Successfully deleted transaction " ++ transaction_id)%string None
     else
       OperationResponse_new false
         ("Transaction " ++ transaction_id ++ " not found")%string None)
    (fun e =>
       OperationResponse_new false
         ("Error deleting transaction: " ++ exc_message e)%string None).

Definition get_transactions_by_ticker (p_ticker : string)
  : M OperationResponse.t :=
  try_except
    (txs <- TransactionCRUD_get_transactions_by_ticker p_ticker ;;
     let converted :=
       convert_for_json (VList (map Transaction.to_dict txs)) in
     OperationResponse_new true
       ("Retrieved " ++ str_of_nat (List.length txs)
        ++ " transactions for " ++ p_ticker)%string
       (Some converted))
    (fun e =>
       OperationResponse_new false
         ("Error getting transactions: " ++ exc_message e)%string None).

Definition get_all_positions : M OperationResponse.t :=
  try_except
    (ps <- PositionCRUD_get_all_positions ;;
     let converted := convert_for_json (VList (map Position.to_dict ps)) in
     OperationResponse_new true
       ("Retrieved " ++ str_of_nat (List.length ps) ++ " positions")%string
       (Some converted))
    (fun e =>
       OperationResponse_new false
         ("Error getting positions: " ++ exc_message e)%string None).

Definition get_position_by_ticker (p_ticker : string) : M OperationResponse.t :=
  try_except
    (position <- PositionCRUD_get_position_by_ticker p_ticker ;;
     match position with
     | Some p =>
         OperationResponse_new true
           ("Position retrieved for " ++ p_ticker)%string
           (Some (convert_for_json (Position.to_dict p)))
     | None =>
         OperationResponse_new false
           ("No position found for ticker " ++ p_ticker)%string None
     end)
    (fun e =>
       OperationResponse_new false
         ("Error getting position: " ++ exc_message e)%string None).

Definition update_market_data (input_data : UpdateMarketDataInput.t)
  : M OperationResponse.t :=
  let p_ticker := UpdateMarketDataInput.ticker input_data in
  try_except
    (last_update <-
       match UpdateMarketDataInput.last_price_update input_data with
       | Some s =>
           if str_truthy s then
             match fromisoformat s with
             | Some t => ret (Some t)
             | None => raise (ValueError "Invalid isoformat string")
             end
           else ret None
       | None => ret None
       end ;;
     update <-
       lift (PositionUpdate.validate
               (PositionUpdate.mk p_ticker
                  (UpdateMarketDataInput.current_price input_data)
                  None None last_update)) ;;
     success <- PositionCRUD_update_position_market_data update ;;
     if success : bool then
       OperationResponse_new true
         ("Successfully updated market data for " ++ p_ticker)%string None
     else
       OperationResponse_new false
         ("Position for " ++ p_ticker ++ " not found")%string None)
    (fun e =>
       OperationResponse_new false
         ("Error updating market data: " ++ exc_message e)%string None).

Definition get_portfolio_summary : M OperationResponse.t :=
  try_except
    (summary <- PositionCRUD_get_portfolio_summary ;;
     OperationResponse_new true "Portfolio summary retrieved successfully"
       (Some (convert_for_json summary)))
    (fun e =>
       OperationResponse_new false
         ("Error getting portfolio summary: " ++ exc_message e)%string None).

(** The dict [get_ticker_analysis] of PortfolioCRUD returns; [float(...)]
    has already been applied to the three sums. *)
Definition analysis_to_dict (a : TickerAnalysis) : PyVal :=
  VDict [ ("ticker", VStr (analysis_ticker a));
          ("position", opt_val Position.to_dict (analysis_position a));
          ("transactions",
           VList (map Transaction.to_dict (analysis_transactions a)));
          ("metrics",
           VDict [ ("total_bought", VFloat (total_bought (analysis_metrics a)));
                   ("total_sold", VFloat (total_sold (analysis_metrics a)));
                   ("net_quantity", VFloat (net_quantity (analysis_metrics a)));
                   ("total_transactions",
                    VInt (Z.of_nat (total_transactions (analysis_metrics a)))) ]) ].

Definition get_ticker_analysis (p_ticker : string) : M OperationResponse.t :=
  try_except
    (analysis <- PortfolioCRUD_get_ticker_analysis p_ticker ;;
     OperationResponse_new true
       ("Analysis retrieved for " ++ p_ticker)%string
       (Some (convert_for_json (analysis_to_dict analysis))))
    (fun e =>
       OperationResponse_new false
         ("Error getting ticker analysis: " ++ exc_message e)%string None).

(** [datetime.strptime(s, ...).date() if s else None]. *)
Definition parse_date_if_truthy (s : option string) : M (option date) :=
  match s with
  | Some v => if str_truthy v then d <- parse_date v ;; ret (Some d)
              else ret None
  | None => ret None
  end.

Definition search_transactions (input_data : SearchTransactionsInput.t)
  : M OperationResponse.t :=
  try_except
    (start_date <-
       parse_date_if_truthy (SearchTransactionsInput.start_date input_data) ;;
     end_date <-
       parse_date_if_truthy (SearchTransactionsInput.end_date input_data) ;;
     let min_quantity :=
       decimal_if_truthy (SearchTransactionsInput.min_quantity input_data) in
     let max_quantity :=
       decimal_if_truthy (SearchTransactionsInput.max_quantity input_data) in
     txs <- PortfolioCRUD_search_transactions
              (SearchTransactionsInput.ticker input_data)
              start_date end_date
              (SearchTransactionsInput.transaction_type input_data)
              min_quantity max_quantity ;;
     let converted :=
       convert_for_json (VList (map Transaction.to_dict txs)) in
     OperationResponse_new true
       ("Found " ++ str_of_nat (List.length txs)
        ++ " matching transactions")%string
       (Some converted))
    (fun e =>
       OperationResponse_new false
         ("Error searching transactions: " ++ exc_message e)%string None).

Definition metrics_to_dict (m : Metrics) : PyVal :=
  let a := aggregates m in
  VDict [ ("total_positions", VInt (Z.of_nat (agg_total_positions a)));
          ("winning_positions", VInt (Z.of_nat (agg_winning_positions a)));
          ("losing_positions", VInt (Z.of_nat (agg_losing_positions a)));
          ("avg_unrealized_pnl", opt_val VDecimal (agg_avg_unrealized_pnl a));
          ("best_performer", opt_val VDecimal (agg_best_performer a));
          ("worst_performer", opt_val VDecimal (agg_worst_performer a));
          ("total_market_value", opt_val VDecimal (agg_total_market_value a));
          ("total_invested", opt_val VDecimal (agg_total_invested a));
          ("total_return_percentage", VFloat (total_return_percentage m));
          ("win_rate", VFloat (win_rate m)) ].

Definition get_performance_metrics : M OperationResponse.t :=
  try_except
    (metrics <- PortfolioCRUD_get_performance_metrics ;;
     OperationResponse_new true "Performance metrics retrieved successfully"
       (Some (convert_for_json (metrics_to_dict metrics))))
    (fun e =>
       OperationResponse_new false
         ("Error getting performance metrics: " ++ exc_message e)%string None).

Definition recalculate_position (p_ticker : string) : M OperationResponse.t :=
  try_except
    (success <- PositionCRUD_recalculate_position p_ticker ;;
     if success : bool then
       OperationResponse_new true
         ("Successfully recalculated position for " ++ p_ticker)%string None
     else
       OperationResponse_new false
         ("Failed to recalculate position for " ++ p_ticker)%string None)
    (fun e =>
       OperationResponse_new false
         ("Error recalculating position: " ++ exc_message e)%string None).

Definition recalculate_all_positions : M OperationResponse.t :=
  try_except
    (success <- PositionCRUD_recalculate_all_positions ;;
     if success : bool then
       OperationResponse_new true "Successfully recalculated all positions" None
     else
       OperationResponse_new false "Failed to recalculate positions" None)
    (fun e =>
       OperationResponse_new false
         ("Error recalculating all positions: " ++ exc_message e)%string None).

(** Every operation of the operations layer, as one request type, and the
    dispatch on it. *)
Inductive Operation : Type :=
| Op_create_transaction (input_data : CreateTransactionInput.t)
| Op_get_transaction (transaction_id : string)
| Op_update_transaction (input_data : UpdateTransactionInput.t)
| Op_delete_transaction (transaction_id : string)
| Op_get_transactions_by_ticker (p_ticker : string)
| Op_get_all_positions
| Op_get_position_by_ticker (p_ticker : string)
| Op_update_market_data (input_data : UpdateMarketDataInput.t)
| Op_get_portfolio_summary
| Op_get_ticker_analysis (p_ticker : string)
| Op_search_transactions (input_data : SearchTransactionsInput.t)
| Op_get_performance_metrics
| Op_recalculate_position (p_ticker : string)
| Op_recalculate_all_positions.

Definition run_operation (op : Operation) : M OperationResponse.t :=
  match op with
  | Op_create_transaction i => create_transaction i
  | Op_get_transaction i => get_transaction i
  | Op_update_transaction i => update_transaction i
  | Op_delete_transaction i => delete_transaction i
  | Op_get_transactions_by_ticker tk => get_transactions_by_ticker tk
  | Op_get_all_positions => get_all_positions
  | Op_get_position_by_ticker tk => get_position_by_ticker tk
  | Op_update_market_data i => update_market_data i
  | Op_get_portfolio_summary => get_portfolio_summary
  | Op_get_ticker_analysis tk => get_ticker_analysis tk
  | Op_search_transactions i => search_transactions i
  | Op_get_performance_metrics => get_performance_metrics
  | Op_recalculate_position tk => recalculate_position tk
  | Op_recalculate_all_positions => recalculate_all_positions
  end.

(* ===================================================================== *)
(** * The vocabulary of the statements *)
(* ===================================================================== *)

(** ** Outcomes of a computation *)

(** [wp m Q w]: running [m] in [w] ends in an outcome and a world that
    satisfy [Q]. *)
Definition wp {A} (m : M A) (Q : Py A -> World -> Prop) (w : World) : Prop :=
  Q (fst (m w)) (snd (m w)).

(** ** create_transaction *)

(** The row the INSERT of [create_transaction] builds for a request whose
    date parsed as [d], in world [w]. *)
Definition inserted_row (input_data : CreateTransactionInput.t) (d : date)
    (w : World) : Transaction.row :=
  Transaction.mk (next_id (tables w))
    (upper (CreateTransactionInput.ticker input_data))
    (upper (CreateTransactionInput.transaction_type input_data))
    (CreateTransactionInput.quantity input_data)
    (CreateTransactionInput.cost_per_share input_data)
    (upper (CreateTransactionInput.currency input_data))
    d
    (decimal_if_truthy (CreateTransactionInput.commission input_data))
    (upper_if_truthy (CreateTransactionInput.commission_currency input_data))
    (CreateTransactionInput.drip_confirmed input_data)
    false 1%Q
    (CreateTransactionInput.notes input_data)
    (clock w) (clock w).

(** What a call of the operation [create_transaction] leaves behind: on
    success exactly one new row, holding the request's values as given
    (the three codes upper-cased); on failure the table as it was. *)
Definition create_outcome (input_data : CreateTransactionInput.t)
    (w : World) (r : Py OperationResponse.t) (w' : World) : Prop :=
  match r with
  | Raise _ => False
  | Return resp =>
      if OperationResponse.success resp then
        exists row,
          transactions (tables w') = transactions (tables w) ++ [row]
          /\ transactions_check row = true
          /\ Transaction.ticker row
             = upper (CreateTransactionInput.ticker input_data)
          /\ Transaction.transaction_type row
             = upper (CreateTransactionInput.transaction_type input_data)
          /\ Transaction.quantity row
             = CreateTransactionInput.quantity input_data
          /\ strptime_ymd (CreateTransactionInput.transaction_date input_data)
             = Some (Transaction.transaction_date row)
      else transactions (tables w') = transactions (tables w)
  end.

(** The column [transaction_type] has the enum type of that name: the
    table takes no row whose type is not one of its labels. *)
Definition type_is_enum : Prop :=
  forall row,
    transactions_check row = true ->
    In (Transaction.transaction_type row) known_types.

(** ** update_transaction *)

(** A column after an update: the supplied value, normalised, or the old
    one. *)
Definition set_or_kept {A} (supplied : option A) (norm : A -> A) (old new : A)
  : Prop :=
  match supplied with
  | Some v => new = norm v
  | None => new = old
  end.

(** The same for a nullable column. *)
Definition set_or_kept_null {A} (supplied : option A) (norm : A -> A)
    (old new : option A) : Prop :=
  match supplied with
  | Some v => new = Some (norm v)
  | None => new = old
  end.

(** [new] is [old] with the fields that [updates] supplies replaced, and
    every other field but [updated_at] as it was. *)
Definition updated_row (updates : TransactionUpdate.t)
    (old new : Transaction.row) : Prop :=
  Transaction.id new = Transaction.id old
  /\ Transaction.created_at new = Transaction.created_at old
  /\ set_or_kept (TransactionUpdate.ticker updates) upper
       (Transaction.ticker old) (Transaction.ticker new)
  /\ set_or_kept (TransactionUpdate.transaction_type updates) upper
       (Transaction.transaction_type old) (Transaction.transaction_type new)
  /\ set_or_kept (TransactionUpdate.quantity updates) (fun v => v)
       (Transaction.quantity old) (Transaction.quantity new)
  /\ set_or_kept (TransactionUpdate.cost_per_share updates) (fun v => v)
       (Transaction.cost_per_share old) (Transaction.cost_per_share new)
  /\ set_or_kept (TransactionUpdate.currency updates) upper
       (Transaction.currency old) (Transaction.currency new)
  /\ set_or_kept (TransactionUpdate.transaction_date updates) (fun v => v)
       (Transaction.transaction_date old) (Transaction.transaction_date new)
  /\ set_or_kept_null (TransactionUpdate.commission updates) (fun v => v)
       (Transaction.commission old) (Transaction.commission new)
  /\ set_or_kept_null (TransactionUpdate.commission_currency updates) upper
       (Transaction.commission_currency old)
       (Transaction.commission_currency new)
  /\ set_or_kept (TransactionUpdate.drip_confirmed updates) (fun v => v)
       (Transaction.drip_confirmed old) (Transaction.drip_confirmed new)
  /\ set_or_kept (TransactionUpdate.is_fractional updates) (fun v => v)
       (Transaction.is_fractional old) (Transaction.is_fractional new)
  /\ set_or_kept (TransactionUpdate.fractional_multiplier updates) (fun v => v)
       (Transaction.fractional_multiplier old)
       (Transaction.fractional_multiplier new)
  /\ set_or_kept_null (TransactionUpdate.notes updates) (fun v => v)
       (Transaction.notes old) (Transaction.notes new).

(** Whether the row is the one the id text names. *)
Definition named_by (transaction_id : string) (r : Transaction.row) : Prop :=
  parse_nat transaction_id = Some (Transaction.id r).

(** What an update may do to one row of the table. *)
Definition row_change (transaction_id : string) (updates : TransactionUpdate.t)
    (old new : Transaction.row) : Prop :=
  new = old \/ (named_by transaction_id old /\ updated_row updates old new).

(** What a successful update does to one row: the named row is updated,
    every other row is left as it was. *)
Definition row_updated (transaction_id : string)
    (updates : TransactionUpdate.t) (old new : Transaction.row) : Prop :=
  (named_by transaction_id old /\ updated_row updates old new)
  \/ (~ named_by transaction_id old /\ new = old).

(** The rows of the table that the id text names. *)
Definition rows_named (transaction_id : string) (rows : list Transaction.row)
  : list Transaction.row :=
  filter (fun r => match parse_nat transaction_id with
                   | Some i => Transaction.id r =? i
                   | None => false
                   end) rows.

(** The [TransactionUpdate] the operation builds from its input, once the
    date, if any, has been parsed. *)
Definition updates_of_input (input_data : UpdateTransactionInput.t)
    (transaction_date : option date) : TransactionUpdate.t :=
  TransactionUpdate.mk
    (UpdateTransactionInput.ticker input_data)
    (UpdateTransactionInput.transaction_type input_data)
    (UpdateTransactionInput.quantity input_data)
    (UpdateTransactionInput.cost_per_share input_data)
    (UpdateTransactionInput.currency input_data)
    transaction_date
    (UpdateTransactionInput.commission input_data)
    (UpdateTransactionInput.commission_currency input_data)
    (UpdateTransactionInput.drip_confirmed input_data)
    None None
    (UpdateTransactionInput.notes input_data).

(** The date of the input, parsed: none supplied, or one that parses. *)
Definition date_of_input (input_data : UpdateTransactionInput.t)
    (transaction_date : option date) : Prop :=
  match UpdateTransactionInput.transaction_date input_data with
  | Some s => transaction_date <> None /\ strptime_ymd s = transaction_date
  | None => transaction_date = None
  end.

(** ** search_transactions *)

(** The conditions [search_transactions] builds from its first four
    arguments. *)
Definition other_conditions (p_ticker : option string)
    (start_date end_date : option date) (transaction_type : option string)
  : list Condition :=
  condition_of str_truthy (fun v => Ticker_eq (upper v)) p_ticker
  ++ condition_of (fun _ => true) Date_ge start_date
  ++ condition_of (fun _ => true) Date_le end_date
  ++ condition_of str_truthy (fun v => Type_eq (upper v)) transaction_type.

(** ** get_ticker_analysis *)

(** The sum of the raw [quantity] column over the rows of one ticker and
    one transaction type. *)
Definition total_of_type (ty p_ticker : string) (rows : list Transaction.row)
  : Q :=
  fold_right Qplus 0%Q
    (map Transaction.quantity
       (filter (fun r => String.eqb (Transaction.ticker r) p_ticker
                         && String.eqb (Transaction.transaction_type r) ty)
               rows)).

(** A row with its fractional flag and multiplier replaced. *)
Definition with_fraction (flag : bool) (multiplier : Decimal)
    (r : Transaction.row) : Transaction.row :=
  let '(Transaction.mk i tk ty q c cur d com comcur drip _ _ n cr up) := r in
  Transaction.mk i tk ty q c cur d com comcur drip flag multiplier n cr up.

(** The rows that are purchases or sales. *)
Definition is_buy_or_sell (r : Transaction.row) : bool :=
  String.eqb (Transaction.transaction_type r) "BUY"
  || String.eqb (Transaction.transaction_type r) "SELL".

(** ** get_performance_metrics *)

(** The positions the aggregates range over. *)
Definition current_positions (w : World) : list Position.row :=
  filter is_current (positions (tables w)).

(** SUM(total_cost_basis) over them: NULL when there is none. *)
Definition invested (w : World) : option Decimal :=
  sql_sum (map Position.total_cost_basis (current_positions w)).

(** How many of them have a positive [unrealized_gain_loss]. *)
Definition winning_positions (w : World) : nat :=
  List.length (filter (fun g => Qlt_bool 0 g) (gains (current_positions w))).

(** C3, as the claim states it: both percentages are zero whenever the
    invested total is zero or there is no position. *)
Definition both_metrics_zero_without_investment : Prop :=
  forall w,
    connects w = true ->
    (exists v, invested w = Some v /\ v == 0) \/ current_positions w = [] ->
    exists m w',
      PortfolioCRUD_get_performance_metrics w = (Return m, w')
      /\ total_return_percentage m == 0
      /\ win_rate m == 0.

(** ** recalculate_all_positions *)

(** The tickers the batch iterates over, in the order the ticker query
    returns them. *)
Definition ledger_tickers (w : World) : list string :=
  unordered (distinct (map Transaction.ticker (transactions (tables w)))).

(** How many of the next [n] connection attempts succeed before one
    fails. *)
Fixpoint succeeded (o : list bool) (n : nat) : nat :=
  match n with
  | 0 => 0
  | S n' =>
      match o with
      | true :: _ => 0
      | _ => S (succeeded (tl o) n')
      end
  end.

(** The tables after the stored function ran for each of the tickers in
    turn, one statement after the other from time [now] on. *)
Fixpoint recalculate_in_order (tickers : list string) (now : datetime)
    (t : Tables) : Tables :=
  match tickers with
  | [] => t
  | tk :: rest =>
      recalculate_in_order rest (S now)
        (sql_recalculate_position (upper tk) now t)
  end.

(** ** The positions table *)

(** The row [get_position_by_ticker] returns: the first of the ticker. *)
Definition find_position (p_ticker : string) (t : Tables)
  : option Position.row :=
  hd_error (filter (fun p => String.eqb (Position.ticker p) p_ticker)
                   (positions t)).

(** The row as the UPDATE of [update_position_market_data] leaves it,
    the two market fields computed from the row that was read. *)
Definition priced (price : Decimal) (read : option Position.row)
    (observed now : datetime) (p : Position.row) : Position.row :=
  Position.mk (Position.ticker p)
    (Position.current_quantity p)
    (Position.avg_cost_per_share p)
    (Position.total_cost_basis p)
    (Some price)
    (match read with
     | Some r => Some (Position.current_quantity r * price)%Q
     | None => None
     end)
    (match read with
     | Some r => Some (Position.current_quantity r * price
                       - Position.total_cost_basis r)%Q
     | None => None
     end)
    (Some observed)
    (Position.primary_currency p)
    now.

(** The invariant of one position row: the two market fields are the ones
    its price gives, and NULL while it has no price. *)
Definition position_inv (p : Position.row) : Prop :=
  Position.current_market_value p
  = market_value (Position.current_quantity p) (Position.current_price p)
  /\ Position.unrealized_gain_loss p
     = gain_loss (Position.current_quantity p) (Position.total_cost_basis p)
                 (Position.current_price p).

(** The invariant of the positions table: one row per ticker, each with
    consistent market fields. *)
Definition positions_inv (t : Tables) : Prop :=
  NoDup (map Position.ticker (positions t))
  /\ Forall position_inv (positions t).

(** A computation keeps the invariant of the positions table. *)
Definition preserves {A} (m : M A) : Prop :=
  forall w, positions_inv (tables w) -> positions_inv (tables (snd (m w))).

(** A statement keeps it when it succeeds. *)
Definition statement_preserves {A} (stmt : Statement A) : Prop :=
  forall now t a t',
    positions_inv t -> stmt now t = Return (a, t') -> positions_inv t'.

(** The worlds the system can be in: it starts with no position, and moves
    by the operations of the operations layer and by direct inserts of the
    CRUD class (the path the importer takes). *)
Inductive reachable : World -> Prop :=
| reachable_start w :
    positions (tables w) = [] -> reachable w
| reachable_operation w op :
    reachable w -> reachable (snd (run_operation op w))
| reachable_insert w transaction :
    reachable w ->
    reachable (snd (TransactionCRUD_create_transaction transaction w)).

(** The fields a recalculation derives. *)
Definition derived_fields (p : Position.row)
  : Decimal * Decimal * Decimal * string :=
  (Position.current_quantity p, Position.avg_cost_per_share p,
   Position.total_cost_basis p, Position.primary_currency p).

(** ** More sample data *)

(** A purchase the broker shows as 10 units of one tenth of a share. *)
Definition fractional_buy : Transaction.row :=
  Transaction.mk 0 "VWCE" "BUY" 10 100 "EUR" (mkdate 2024 3 1)
    (Some 0%Q) None false true (1 # 10) None 0 0.

(** The world after that purchase and the recalculation of its ticker. *)
Definition fractional_world : World :=
  mkWorld (sql_recalculate_position "VWCE" 0
             (mkTables [fractional_buy] [] 1))
          1 [].

(** Two purchases of the same ticker, at 100 and at 200. *)
Definition two_buys : list Transaction.row :=
  [buy_row 1 "X" 10 100 (mkdate 2024 1 2);
   buy_row 2 "X" 10 200 (mkdate 2024 1 3)].

(** An update that supplies the quantity and nothing else. *)
Definition quantity_update : TransactionUpdate.t :=
  TransactionUpdate.mk None None (Some 7%Q) None None None None None None
    None None None.

(** A quote of 120 for AAPL, the ticker given in lower case. *)
Definition price_update : PositionUpdate.t :=
  PositionUpdate.mk "aapl" 120 None None None.

(* ===================================================================== *)
(** * Computations: basic facts *)
(* ===================================================================== *)

Lemma log_and_reraise_run {A} (m : M A) (w : World) :
  log_and_reraise m w = m w.
Proof.
  unfold log_and_reraise, try_except, raise.
  destruct (m w) as [[a | e] w']; reflexivity.
Qed.

Lemma execute_query_run {A} (stmt : Statement A) (w : World) :
  execute_query stmt w = with_connection stmt w.
Proof. apply log_and_reraise_run. Qed.

Lemma execute_command_run (stmt : Statement nat) (w : World) :
  execute_command stmt w = with_connection stmt w.
Proof. apply log_and_reraise_run. Qed.

Lemma with_connection_outage {A} (stmt : Statement A) (w : World) :
  connects w = false ->
  with_connection stmt w
  = (Raise (OperationalError "connection failed"),
     mkWorld (tables w) (clock w) (tl (outages w))).
Proof. intros H. unfold with_connection. now rewrite H. Qed.

(** A statement that fails, or a connection that fails, leaves the tables
    as they were. *)
Lemma with_connection_raise_keeps_tables {A} (stmt : Statement A) w e w' :
  with_connection stmt w = (Raise e, w') -> tables w' = tables w.
Proof.
  unfold with_connection.
  destruct (connects w).
  - destruct (stmt (clock w) (tables w)) as [[a t'] | e0];
      intros H; inversion H; reflexivity.
  - intros H; inversion H; reflexivity.
Qed.

(** A handler that returns makes the whole [try] return. *)
Lemma try_except_returns {A} (body : M A) (handler : PyExc -> M A) :
  (forall e w, exists r w', handler e w = (Return r, w')) ->
  forall w, exists r w', try_except body handler w = (Return r, w').
Proof.
  intros Hh w. unfold try_except.
  destruct (body w) as [[a | e] w1].
  - now exists a, w1.
  - apply Hh.
Qed.

Lemma failure_response_returns (msg : string) (w : World) :
  OperationResponse_new false msg None w
  = (Return (OperationResponse.mk false msg None), w).
Proof. reflexivity. Qed.

(* ===================================================================== *)
(** * Reasoning about computations *)
(* ===================================================================== *)

Lemma wp_ret {A} (a : A) Q w : Q (Return a) w -> wp (ret a) Q w.
Proof. exact (fun H => H). Qed.

Lemma wp_raise {A} (e : PyExc) (Q : Py A -> World -> Prop) w :
  Q (Raise e) w -> wp (raise e) Q w.
Proof. exact (fun H => H). Qed.

Lemma wp_lift {A} (r : Py A) Q w : Q r w -> wp (lift r) Q w.
Proof. exact (fun H => H). Qed.

Lemma wp_bind {A B} (m : M A) (k : A -> M B) Q w :
  wp m (fun r w1 => match r with
                    | Return a => wp (k a) Q w1
                    | Raise e => Q (Raise e) w1
                    end) w ->
  wp (bind m k) Q w.
Proof.
  unfold wp, bind. destruct (m w) as [[a | e] w1]; cbn; auto.
Qed.

Lemma wp_try_except {A} (body : M A) (handler : PyExc -> M A) Q w :
  wp body (fun r w1 => match r with
                       | Return a => Q (Return a) w1
                       | Raise e => wp (handler e) Q w1
                       end) w ->
  wp (try_except body handler) Q w.
Proof.
  unfold wp, try_except. destruct (body w) as [[a | e] w1]; cbn; auto.
Qed.

Lemma wp_log_and_reraise {A} (m : M A) Q w :
  wp m Q w -> wp (log_and_reraise m) Q w.
Proof. unfold wp. now rewrite log_and_reraise_run. Qed.

Lemma wp_consequence {A} (m : M A) (Q Q' : Py A -> World -> Prop) w :
  (forall r w', Q r w' -> Q' r w') -> wp m Q w -> wp m Q' w.
Proof. unfold wp. auto. Qed.

Lemma wp_with_connection {A} (stmt : Statement A) Q w :
  (connects w = false ->
   Q (Raise (OperationalError "connection failed"))
     (mkWorld (tables w) (clock w) (tl (outages w)))) ->
  (connects w = true ->
   match stmt (clock w) (tables w) with
   | Return (a, t') => Q (Return a) (mkWorld t' (S (clock w)) (tl (outages w)))
   | Raise e => Q (Raise e) (mkWorld (tables w) (S (clock w)) (tl (outages w)))
   end) ->
  wp (with_connection stmt) Q w.
Proof.
  intros Hout Hin. unfold wp, with_connection.
  destruct (connects w).
  - specialize (Hin eq_refl).
    destruct (stmt (clock w) (tables w)) as [[a t'] | e]; exact Hin.
  - exact (Hout eq_refl).
Qed.

Lemma wp_execute_query {A} (stmt : Statement A) Q w :
  wp (with_connection stmt) Q w -> wp (execute_query stmt) Q w.
Proof. apply wp_log_and_reraise. Qed.

Lemma wp_execute_command (stmt : Statement nat) Q w :
  wp (with_connection stmt) Q w -> wp (execute_command stmt) Q w.
Proof. apply wp_log_and_reraise. Qed.

Lemma wp_datetime_now Q w : Q (Return (clock w)) w -> wp datetime_now Q w.
Proof. exact (fun H => H). Qed.

Lemma wp_response (success : bool) (msg : string) Q w :
  Q (Return (OperationResponse.mk success msg None)) w ->
  wp (OperationResponse_new success msg None) Q w.
Proof. exact (fun H => H). Qed.

(** Whatever the payload, building a response returns one with the flag
    asked for, or raises; the world stays. *)
Lemma wp_response_data (success : bool) (msg : string) (data : PyVal)
    (Q : Py OperationResponse.t -> World -> Prop) w :
  (forall d, Q (Return (OperationResponse.mk success msg (Some d))) w) ->
  (forall e, Q (Raise e) w) ->
  wp (OperationResponse_new success msg (Some data)) Q w.
Proof.
  intros Hr He. unfold wp, OperationResponse_new.
  destruct data; try (destruct (coerce_to_dict _); cbn; auto); cbn; auto.
Qed.

(** A dict payload is taken as it is. *)
Lemma wp_response_dict (success : bool) (msg : string)
    (items : list (string * PyVal))
    (Q : Py OperationResponse.t -> World -> Prop) w :
  Q (Return (OperationResponse.mk success msg (Some (VDict items)))) w ->
  wp (OperationResponse_new success msg (Some (VDict items))) Q w.
Proof. exact (fun H => H). Qed.

Ltac wp_step :=
  lazymatch goal with
  | |- wp (bind _ _) _ _ => apply wp_bind
  | |- wp (try_except _ _) _ _ => apply wp_try_except
  | |- wp (log_and_reraise _) _ _ => apply wp_log_and_reraise
  | |- wp (execute_query _) _ _ => apply wp_execute_query
  | |- wp (execute_command _) _ _ => apply wp_execute_command
  | |- wp (ret _) _ _ => apply wp_ret
  | |- wp (raise _) _ _ => apply wp_raise
  | |- wp (lift _) _ _ => apply wp_lift
  | |- wp datetime_now _ _ => apply wp_datetime_now
  | |- wp (py_div _ _) _ _ => unfold py_div
  | |- wp (OperationResponse_new _ _ None) _ _ => apply wp_response
  end.

Ltac wp_steps := repeat wp_step.

Create HintDb crud discriminated.

#[local] Hint Unfold
  TransactionCRUD_create_transaction TransactionCRUD_get_transaction_by_id
  TransactionCRUD_get_transactions_by_ticker TransactionCRUD_update_transaction
  TransactionCRUD_delete_transaction
  PositionCRUD_get_position_by_ticker PositionCRUD_get_all_positions
  PositionCRUD_get_portfolio_summary PositionCRUD_update_position_market_data
  PositionCRUD_recalculate_position PositionCRUD_recalculate_all_positions
  PortfolioCRUD_get_ticker_analysis PortfolioCRUD_get_performance_metrics
  PortfolioCRUD_search_transactions : crud.

Create HintDb operations discriminated.

#[local] Hint Unfold
  create_transaction get_transaction update_transaction delete_transaction
  get_transactions_by_ticker get_all_positions get_position_by_ticker
  update_market_data get_portfolio_summary get_ticker_analysis
  search_transactions get_performance_metrics recalculate_position
  recalculate_all_positions parse_date parse_optional_date
  parse_date_if_truthy : operations.

(** One step of symbolic execution: a rule of the calculus, or a case
    split on what the program branches on. *)
Ltac wp_case :=
  cbv beta iota;
  first
    [ wp_step
    | apply wp_with_connection; intros ?
    | apply wp_response_dict
    | apply wp_response_data; intros ?
    | match goal with
      | |- wp (match ?x with _ => _ end) _ _ => destruct x eqn:?
      | |- wp (if ?x then _ else _) _ _ => destruct x eqn:?
      | |- match ?x with _ => _ end => destruct x eqn:?
      end ].

Ltac wp_run := repeat wp_case.

Lemma wp_any {A} (m : M A) (Q : Py A -> World -> Prop) w :
  (forall r w', Q r w') -> wp m Q w.
Proof. unfold wp. auto. Qed.

(* ===================================================================== *)
(** * C8: every operation answers with an OperationResponse *)
(* ===================================================================== *)

Ltac failure_or_vacuous :=
  eexists; split; [reflexivity | intros; first [reflexivity | congruence]].

Lemma operations_respond_wp (op : Operation) (w : World) :
  wp (run_operation op)
     (fun r _ => exists resp,
          r = Return resp
          /\ (connects w = false -> OperationResponse.success resp = false)) w.
Proof.
  destruct op; cbn [run_operation];
    autounfold with operations; autounfold with crud;
    wp_run; try failure_or_vacuous.
  (* recalculate_all_positions: whatever the loop did, a response follows *)
  apply wp_any; intros [[] | e] w1; wp_run; failure_or_vacuous.
Qed.

(** C8.  Every operation of the operations layer, on every input and in
    every world (whatever the tables hold, whichever connection attempts
    fail, whatever constraint the schema enforces), returns an
    OperationResponse and never raises; and when the store cannot even be
    reached the response carries [success = false]. *)
Theorem operations_always_respond (op : Operation) (w : World) :
  exists resp w',
    run_operation op w = (Return resp, w')
    /\ (connects w = false -> OperationResponse.success resp = false).
Proof.
  pose proof (operations_respond_wp op w) as H. unfold wp in H.
  destruct (run_operation op w) as [r w']. cbn in H.
  destruct H as (resp & -> & Hf).
  now exists resp, w'.
Qed.

(* ===================================================================== *)
(** * The recalculation writes positions only *)
(* ===================================================================== *)

Lemma sql_recalculate_position_transactions p_ticker now t :
  transactions (sql_recalculate_position p_ticker now t) = transactions t.
Proof.
  unfold sql_recalculate_position.
  destruct (recalculate _); reflexivity.
Qed.

Lemma sql_recalculate_position_next_id p_ticker now t :
  next_id (sql_recalculate_position p_ticker now t) = next_id t.
Proof.
  unfold sql_recalculate_position.
  destruct (recalculate _); reflexivity.
Qed.

Lemma trigger_recalculate_position_transactions tickers now t :
  transactions (trigger_recalculate_position tickers now t) = transactions t.
Proof.
  unfold trigger_recalculate_position.
  revert t. induction tickers as [| tk rest IH]; intros t; cbn.
  - reflexivity.
  - rewrite IH. apply sql_recalculate_position_transactions.
Qed.

(* ===================================================================== *)
(** * C4 and C6: what create_transaction checks and what it stores *)
(* ===================================================================== *)

Lemma TransactionCreate_validate_returns (x a : TransactionCreate.t) :
  TransactionCreate.validate x = Return a ->
  a = x /\ max_length_20 (TransactionCreate.ticker x) = true.
Proof.
  unfold TransactionCreate.validate.
  destruct (max_length_20 _); intros H; inversion H; auto.
Qed.

Lemma sql_insert_transaction_returns params now t n t' :
  sql_insert_transaction params now t = Return (n, t') ->
  exists row,
    transactions t' = transactions t ++ [row]
    /\ transactions_check row = true
    /\ Transaction.id row = next_id t
    /\ Transaction.ticker row = TransactionCreate.ticker params
    /\ Transaction.transaction_type row
       = TransactionCreate.transaction_type params
    /\ Transaction.quantity row = TransactionCreate.quantity params
    /\ Transaction.transaction_date row
       = TransactionCreate.transaction_date params
    /\ Transaction.fractional_multiplier row
       = TransactionCreate.fractional_multiplier params.
Proof.
  unfold sql_insert_transaction.
  destruct (transactions_check _) eqn:Hcheck; [| discriminate].
  intros H; injection H as <- <-.
  eexists.
  rewrite ?trigger_recalculate_position_transactions,
    ?sql_recalculate_position_transactions.
  cbn [transactions]. split; [reflexivity |].
  split; [exact Hcheck |]. cbn. repeat split.
Qed.

Lemma create_transaction_wp (input_data : CreateTransactionInput.t) w :
  wp (create_transaction input_data) (create_outcome input_data w) w.
Proof.
  autounfold with operations; autounfold with crud.
  wp_run; try reflexivity.
  all: unfold create_outcome; cbn [OperationResponse.success tables].
  match goal with
  | H : sql_insert_transaction _ _ _ = Return _ |- _ =>
      apply sql_insert_transaction_returns in H;
      destruct H as (row & Hrows & Hcheck & _ & Htk & Hty & Hq & Hd & _)
  end.
  match goal with
  | H : TransactionCreate.validate _ = Return _ |- _ =>
      apply TransactionCreate_validate_returns in H; destruct H as [-> _]
  end.
  cbn in Htk, Hty, Hq, Hd.
  exists row. repeat split; try assumption. congruence.
Qed.

Lemma create_transaction_rejected_early input_data w :
  strptime_ymd (CreateTransactionInput.transaction_date input_data) = None
  \/ max_length_20 (CreateTransactionInput.ticker input_data) = false ->
  exists msg,
    create_transaction input_data w
    = (Return (OperationResponse.mk false msg None), w).
Proof.
  intros H. unfold create_transaction, try_except, bind, parse_date.
  destruct (strptime_ymd _) as [d |] eqn:Hd.
  - destruct H as [H | H]; [discriminate |].
    cbn [ret lift]. unfold TransactionCreate.validate.
    cbn [TransactionCreate.ticker]. rewrite H. cbn.
    eexists. reflexivity.
  - cbn. eexists. reflexivity.
Qed.

Lemma create_transaction_accepted input_data d w :
  strptime_ymd (CreateTransactionInput.transaction_date input_data) = Some d ->
  max_length_20 (CreateTransactionInput.ticker input_data) = true ->
  connects w = true ->
  transactions_check (inserted_row input_data d w) = true ->
  exists resp w',
    create_transaction input_data w = (Return resp, w')
    /\ OperationResponse.success resp = true
    /\ transactions (tables w')
       = transactions (tables w) ++ [inserted_row input_data d w].
Proof.
  intros Hd Hlen Hconn Hcheck.
  unfold create_transaction, try_except, bind, parse_date.
  rewrite Hd. cbn [ret lift]. unfold TransactionCreate.validate.
  cbn [TransactionCreate.ticker]. rewrite Hlen.
  unfold TransactionCRUD_create_transaction.
  rewrite log_and_reraise_run. unfold bind.
  rewrite execute_query_run. unfold with_connection. rewrite Hconn.
  unfold sql_insert_transaction. cbn [TransactionCreate.ticker
    TransactionCreate.transaction_type TransactionCreate.quantity
    TransactionCreate.cost_per_share TransactionCreate.currency
    TransactionCreate.transaction_date TransactionCreate.commission
    TransactionCreate.commission_currency TransactionCreate.drip_confirmed
    TransactionCreate.is_fractional TransactionCreate.fractional_multiplier
    TransactionCreate.notes].
  unfold inserted_row in Hcheck. rewrite Hcheck.
  cbn [ret OperationResponse_new]. eexists _, _. split; [reflexivity |].
  split; [reflexivity |].
  cbn [tables]. rewrite trigger_recalculate_position_transactions.
  reflexivity.
Qed.

(** Whatever the request, the operation returns a response, and a failure
    response means that no row was inserted. *)
Lemma create_transaction_responds
    (input_data : CreateTransactionInput.t) (w : World) :
  exists resp w',
    create_transaction input_data w = (Return resp, w')
    /\ (OperationResponse.success resp = false ->
        transactions (tables w') = transactions (tables w))
    /\ (OperationResponse.success resp = true ->
        exists row,
          transactions (tables w') = transactions (tables w) ++ [row]
          /\ transactions_check row = true
          /\ Transaction.transaction_type row
             = upper (CreateTransactionInput.transaction_type input_data)).
Proof.
  pose proof (create_transaction_wp input_data w) as H.
  unfold wp, create_outcome in H.
  destruct (create_transaction input_data w) as [[resp | e] w']; cbn in H.
  - exists resp, w'. split; [reflexivity |].
    destruct (OperationResponse.success resp).
    + split; [discriminate |]. intros _.
      destruct H as (row & Hrows & Hcheck & _ & Hty & _).
      now exists row.
    + split; [now intros _ | discriminate].
  - contradiction.
Qed.

(** C4.  A create request with malformed input is refused and the table
    [transactions] is left as it was.  A [transaction_date] (ASCII text)
    that does not parse as %Y-%m-%d, or a ticker of more than 20
    characters, is refused by the Python layers before any statement is
    sent: the answer is a failure and the world is unchanged.  An unknown
    transaction type (ASCII text that, upper-cased, is none of BUY, SELL,
    DIVIDEND, SPLIT) is not examined by any Python layer; it is refused by
    the INSERT, because the column has the enum type [transaction_type]:
    the statement fails, the transaction is rolled back, the answer is a
    failure and the table holds the rows it held. *)
Theorem create_transaction_rejects_malformed_requests
    (input_data : CreateTransactionInput.t) (w : World) :
  (is_ascii (CreateTransactionInput.transaction_date input_data) = true ->
   strptime_ymd (CreateTransactionInput.transaction_date input_data) = None ->
   exists msg,
     create_transaction input_data w
     = (Return (OperationResponse.mk false msg None), w))
  /\ (max_length_20 (CreateTransactionInput.ticker input_data) = false ->
      exists msg,
        create_transaction input_data w
        = (Return (OperationResponse.mk false msg None), w))
  /\ (type_is_enum ->
      is_ascii (CreateTransactionInput.transaction_type input_data) = true ->
      ~ In (upper (CreateTransactionInput.transaction_type input_data))
           known_types ->
      exists resp w',
        create_transaction input_data w = (Return resp, w')
        /\ OperationResponse.success resp = false
        /\ transactions (tables w') = transactions (tables w)).
Proof.
  split; [| split].
  - intros _ Hdate. apply create_transaction_rejected_early. now left.
  - intros Hlen. apply create_transaction_rejected_early. now right.
  - intros Henum _ Hunknown.
    destruct (create_transaction_responds input_data w)
      as (resp & w' & Hrun & Hfail & Hok).
    exists resp, w'. split; [exact Hrun |].
    destruct (OperationResponse.success resp) eqn:Hs.
    + destruct (Hok eq_refl) as (row & _ & Hcheck & Hty).
      exfalso. apply Hunknown. rewrite <- Hty. now apply Henum.
    + split; [reflexivity | now apply Hfail].
Qed.

(* ===================================================================== *)
(** * C5: update_transaction changes the supplied fields only *)
(* ===================================================================== *)

(** A column of the row after a list of assignments, given how one
    assignment acts on that column. *)
Lemma column_after_assignments {B} (column : Transaction.row -> B)
    (act : B -> Assignment -> B) :
  (forall a r, column (assign a r) = act (column r) a) ->
  forall fields r,
    column (fold_left (fun acc a => assign a acc) fields r)
    = fold_left act fields (column r).
Proof.
  intros Hact fields. induction fields as [| a rest IH]; intros r; cbn.
  - reflexivity.
  - rewrite IH, Hact. reflexivity.
Qed.

Lemma fold_assignment_of {A B} (act : B -> Assignment -> B)
    (f : A -> Assignment) (value : option A) (acc : B) :
  fold_left act (assignment_of f value) acc
  = match value with Some v => act acc (f v) | None => acc end.
Proof. destruct value; reflexivity. Qed.

Lemma fold_assignment_of_other {A B} (act : B -> Assignment -> B)
    (f : A -> Assignment) (value : option A) (acc : B) :
  (forall v, act acc (f v) = acc) ->
  fold_left act (assignment_of f value) acc = acc.
Proof. intros H. destruct value; cbn; auto. Qed.

(** Drop from a fold over the SET list every segment that assigns another
    column. *)
Ltac skip_other_columns :=
  repeat match goal with
         | |- context [fold_left ?act (assignment_of ?f ?x) ?acc] =>
             rewrite (fold_assignment_of_other act f x acc)
               by (intros; reflexivity)
         end.

(** One conjunct of [updated_row]: push the column through the fold, drop
    the segments of the other columns, and look at the one that is left. *)
Ltac solve_column column act value :=
  rewrite (column_after_assignments column act)
    by (intros a []; destruct a; reflexivity);
  unfold update_fields_of; rewrite !fold_left_app; skip_other_columns;
  rewrite ?fold_assignment_of; destruct value; reflexivity.

Lemma touch_columns now r :
  Transaction.id (touch now r) = Transaction.id r
  /\ Transaction.ticker (touch now r) = Transaction.ticker r
  /\ Transaction.transaction_type (touch now r) = Transaction.transaction_type r
  /\ Transaction.quantity (touch now r) = Transaction.quantity r
  /\ Transaction.cost_per_share (touch now r) = Transaction.cost_per_share r
  /\ Transaction.currency (touch now r) = Transaction.currency r
  /\ Transaction.transaction_date (touch now r) = Transaction.transaction_date r
  /\ Transaction.commission (touch now r) = Transaction.commission r
  /\ Transaction.commission_currency (touch now r)
     = Transaction.commission_currency r
  /\ Transaction.drip_confirmed (touch now r) = Transaction.drip_confirmed r
  /\ Transaction.is_fractional (touch now r) = Transaction.is_fractional r
  /\ Transaction.fractional_multiplier (touch now r)
     = Transaction.fractional_multiplier r
  /\ Transaction.notes (touch now r) = Transaction.notes r
  /\ Transaction.created_at (touch now r) = Transaction.created_at r.
Proof. destruct r; cbn. repeat split. Qed.

Lemma apply_assignments_updated_row updates now r :
  updated_row updates r (apply_assignments (update_fields_of updates) now r).
Proof.
  unfold apply_assignments, updated_row.
  destruct (touch_columns now
              (fold_left (fun acc a => assign a acc) (update_fields_of updates) r))
    as (-> & -> & -> & -> & -> & -> & -> & -> & -> & -> & -> & -> & -> & ->).
  repeat split.
  - solve_column Transaction.id (fun (old : nat) (_ : Assignment) => old)
      (Some tt).
  - solve_column Transaction.created_at
      (fun (old : datetime) (_ : Assignment) => old) (Some tt).
  - solve_column Transaction.ticker
      (fun old a => match a with Set_ticker v => v | _ => old end)
      (TransactionUpdate.ticker updates).
  - solve_column Transaction.transaction_type
      (fun old a => match a with Set_transaction_type v => v | _ => old end)
      (TransactionUpdate.transaction_type updates).
  - solve_column Transaction.quantity
      (fun old a => match a with Set_quantity v => v | _ => old end)
      (TransactionUpdate.quantity updates).
  - solve_column Transaction.cost_per_share
      (fun old a => match a with Set_cost_per_share v => v | _ => old end)
      (TransactionUpdate.cost_per_share updates).
  - solve_column Transaction.currency
      (fun old a => match a with Set_currency v => v | _ => old end)
      (TransactionUpdate.currency updates).
  - solve_column Transaction.transaction_date
      (fun old a => match a with Set_transaction_date v => v | _ => old end)
      (TransactionUpdate.transaction_date updates).
  - solve_column Transaction.commission
      (fun old a => match a with Set_commission v => Some v | _ => old end)
      (TransactionUpdate.commission updates).
  - solve_column Transaction.commission_currency
      (fun old a =>
         match a with Set_commission_currency v => Some v | _ => old end)
      (TransactionUpdate.commission_currency updates).
  - solve_column Transaction.drip_confirmed
      (fun old a => match a with Set_drip_confirmed v => v | _ => old end)
      (TransactionUpdate.drip_confirmed updates).
  - solve_column Transaction.is_fractional
      (fun old a => match a with Set_is_fractional v => v | _ => old end)
      (TransactionUpdate.is_fractional updates).
  - solve_column Transaction.fractional_multiplier
      (fun old a =>
         match a with Set_fractional_multiplier v => v | _ => old end)
      (TransactionUpdate.fractional_multiplier updates).
  - solve_column Transaction.notes
      (fun old a => match a with Set_notes v => Some v | _ => old end)
      (TransactionUpdate.notes updates).
Qed.

Lemma row_updated_change transaction_id updates old new :
  row_updated transaction_id updates old new ->
  row_change transaction_id updates old new.
Proof.
  forget_schema. unfold row_updated, row_change. tauto. Qed.

Lemma Forall2_map_right {A B} (R : A -> B -> Prop) (f : A -> B) (l : list A) :
  (forall x, In x l -> R x (f x)) -> Forall2 R l (map f l).
Proof.
  induction l as [| x l IH]; intros H; cbn; constructor.
  - apply H. now left.
  - apply IH. intros y Hy. apply H. now right.
Qed.

Lemma Forall2_same {A} (R : A -> A -> Prop) (l : list A) :
  (forall x, R x x) -> Forall2 R l l.
Proof. intros H. induction l; constructor; auto. Qed.

Lemma uuid_of_returns transaction_id n :
  uuid_of transaction_id = Return n -> parse_nat transaction_id = Some n.
Proof.
  unfold uuid_of. destruct (parse_nat transaction_id); intros H;
    inversion H; reflexivity.
Qed.

Lemma sql_update_transaction_returns updates transaction_id now t n t' :
  sql_update_transaction (update_fields_of updates) transaction_id now t
  = Return (n, t') ->
  Forall2 (row_updated transaction_id updates)
          (transactions t) (transactions t')
  /\ n = List.length
           (filter (fun r => match parse_nat transaction_id with
                             | Some i => Transaction.id r =? i
                             | None => false
                             end) (transactions t)).
Proof.
  unfold sql_update_transaction.
  destruct (uuid_of transaction_id) as [i | e] eqn:Hid; [| discriminate].
  apply uuid_of_returns in Hid.
  destruct (forallb _ _); [| discriminate].
  intros H. injection H as <- <-.
  rewrite trigger_recalculate_position_transactions. cbn [transactions].
  rewrite Hid. split; [| reflexivity].
  apply Forall2_map_right. intros r _. unfold row_updated, named_by.
  rewrite Hid.
  destruct (Transaction.id r =? i) eqn:Hhit.
  - left. apply Nat.eqb_eq in Hhit. subst i. split; [reflexivity |].
    apply apply_assignments_updated_row.
  - right. apply Nat.eqb_neq in Hhit. split; [congruence | reflexivity].
Qed.

Lemma TransactionCRUD_update_transaction_wp transaction_id updates w :
  wp (TransactionCRUD_update_transaction transaction_id updates)
     (fun r w' =>
        match r with
        | Return true =>
            Forall2 (row_updated transaction_id updates)
                    (transactions (tables w)) (transactions (tables w'))
            /\ rows_named transaction_id (transactions (tables w)) <> []
        | _ => transactions (tables w') = transactions (tables w)
        end) w.
Proof.
  unfold TransactionCRUD_update_transaction.
  destruct (update_fields_of updates) eqn:Hfields.
  - wp_run. reflexivity.
  - rewrite <- Hfields. wp_run; try reflexivity.
    all: match goal with
         | H : sql_update_transaction _ _ _ _ = Return _ |- _ =>
             apply sql_update_transaction_returns in H;
             destruct H as [Hrows Hn]
         end.
    + cbn [tables]. split; [exact Hrows |].
      fold (rows_named transaction_id (transactions (tables w))) in Hn.
      intros Hnil. rewrite Hnil in Hn. cbn in Hn. subst.
      match goal with H : (0 <? 0) = true |- _ => discriminate H end.
    + match goal with H : (0 <? _) = false |- _ => apply Nat.ltb_ge in H end.
      fold (rows_named transaction_id (transactions (tables w))) in Hn.
      assert (Hnil : rows_named transaction_id (transactions (tables w)) = [])
        by (apply length_zero_iff_nil; lia).
      cbn [tables]. clear - Hrows Hnil.
      unfold rows_named in Hnil.
      induction Hrows as [| old new l l' Hrow Hrest IH]; [reflexivity |].
      cbn in Hnil.
      destruct Hrow as [[Hnamed _] | [_ ->]].
      * unfold named_by in Hnamed. rewrite Hnamed in Hnil.
        rewrite Nat.eqb_refl in Hnil. discriminate.
      * f_equal. apply IH.
        destruct (match parse_nat transaction_id with
                  | Some i => Transaction.id old =? i
                  | None => false
                  end); [discriminate | exact Hnil].
Qed.

Lemma TransactionUpdate_validate_returns (x a : TransactionUpdate.t) :
  TransactionUpdate.validate x = Return a -> a = x.
Proof.
  unfold TransactionUpdate.validate.
  destruct (TransactionUpdate.ticker x) as [s |];
    [destruct (max_length_20 s) |]; intros H; inversion H; reflexivity.
Qed.

Lemma update_transaction_wp (input_data : UpdateTransactionInput.t) w :
  wp (update_transaction input_data)
     (fun r w' =>
        exists resp,
          r = Return resp
          /\ if OperationResponse.success resp then
               exists d,
                 date_of_input input_data d
                 /\ Forall2
                      (row_updated
                         (UpdateTransactionInput.transaction_id input_data)
                         (updates_of_input input_data d))
                      (transactions (tables w)) (transactions (tables w'))
                 /\ rows_named
                      (UpdateTransactionInput.transaction_id input_data)
                      (transactions (tables w)) <> []
             else transactions (tables w') = transactions (tables w)) w.
Proof.
  unfold update_transaction.
  apply wp_try_except, wp_bind.
  unfold parse_optional_date, parse_date.
  destruct (UpdateTransactionInput.transaction_date input_data) as [s |] eqn:Hs.
  - destruct (strptime_ymd s) as [d |] eqn:Hd.
    + wp_run.
      * apply TransactionUpdate_validate_returns in Heqp. subst a.
        eapply wp_consequence;
          [| apply TransactionCRUD_update_transaction_wp].
        intros [[] | e] w'; cbn beta iota; intros H; wp_run.
        -- eexists. split; [reflexivity |]. cbn [OperationResponse.success].
           exists (Some d). unfold date_of_input. rewrite Hs.
           destruct H as [H1 H2]. repeat split; try assumption. discriminate.
        -- eexists. split; [reflexivity |]. exact H.
        -- eexists. split; [reflexivity |]. exact H.
      * eexists. split; reflexivity.
    + wp_run. eexists. split; reflexivity.
  - wp_run.
    + apply TransactionUpdate_validate_returns in Heqp. subst a.
      eapply wp_consequence;
        [| apply TransactionCRUD_update_transaction_wp].
      intros [[] | e] w'; cbn beta iota; intros H; wp_run.
      * eexists. split; [reflexivity |]. cbn [OperationResponse.success].
        exists None. unfold date_of_input. rewrite Hs.
        destruct H as [H1 H2]. repeat split; assumption.
      * eexists. split; [reflexivity |]. exact H.
      * eexists. split; [reflexivity |]. exact H.
    + eexists. split; reflexivity.
Qed.

(** C5.  An update changes, in the row that the id names, the fields that
    were supplied with a value (the four code fields upper-cased) and
    [updated_at]; every field that was not supplied keeps its value, and no
    other row of the table is modified.  This holds of
    [TransactionCRUD.update_transaction] for every [TransactionUpdate], and
    of the operation [update_transaction] for every input: a successful
    call has updated the named row exactly so; any other call has left the
    whole table as it was. *)
Theorem update_transaction_changes_supplied_fields_only
    (transaction_id : string) (updates : TransactionUpdate.t)
    (input_data : UpdateTransactionInput.t) (w : World) :
  (let r := TransactionCRUD_update_transaction transaction_id updates w in
   Forall2 (row_change transaction_id updates)
           (transactions (tables w)) (transactions (tables (snd r)))
   /\ (fst r = Return true ->
       Forall2 (row_updated transaction_id updates)
               (transactions (tables w)) (transactions (tables (snd r)))
       /\ rows_named transaction_id (transactions (tables w)) <> [])
   /\ (fst r <> Return true ->
       transactions (tables (snd r)) = transactions (tables w)))
  /\ (exists resp w',
        update_transaction input_data w = (Return resp, w')
        /\ (OperationResponse.success resp = true ->
            exists d,
              date_of_input input_data d
              /\ Forall2
                   (row_updated
                      (UpdateTransactionInput.transaction_id input_data)
                      (updates_of_input input_data d))
                   (transactions (tables w)) (transactions (tables w'))
              /\ rows_named
                   (UpdateTransactionInput.transaction_id input_data)
                   (transactions (tables w)) <> [])
        /\ (OperationResponse.success resp = false ->
            transactions (tables w') = transactions (tables w))).
Proof.
  split.
  - pose proof (TransactionCRUD_update_transaction_wp transaction_id updates w)
      as H.
    unfold wp in H. cbv zeta.
    destruct (TransactionCRUD_update_transaction transaction_id updates w)
      as [r w']. cbn [fst snd] in *.
    destruct r as [[] | e].
    + destruct H as [H1 H2]. repeat split; try assumption.
      * revert H1. apply Forall2_impl. apply row_updated_change.
      * congruence.
    + rewrite H. repeat split; try discriminate.
      apply Forall2_same. now left.
    + rewrite H. repeat split; try discriminate.
      apply Forall2_same. now left.
  - pose proof (update_transaction_wp input_data w) as H. unfold wp in H.
    destruct (update_transaction input_data w) as [r w']. cbn [fst snd] in H.
    destruct H as (resp & -> & H). exists resp, w'.
    split; [reflexivity |].
    destruct (OperationResponse.success resp); split; intros Hs;
      try discriminate; exact H.
Qed.

(* ===================================================================== *)
(** * ORDER BY keeps the rows *)
(* ===================================================================== *)

Lemma insert_by_permutation {A} (le : A -> A -> bool) (x : A) (l : list A) :
  Permutation (x :: l) (insert_by le x l).
Proof.
  induction l as [| y l IH]; cbn.
  - apply Permutation_refl.
  - destruct (le x y).
    + apply Permutation_refl.
    + eapply Permutation_trans; [apply perm_swap |].
      now apply perm_skip.
Qed.

Lemma order_by_permutation {A} (le : A -> A -> bool) (l : list A) :
  Permutation l (order_by le l).
Proof.
  induction l as [| x l IH]; cbn.
  - apply Permutation_refl.
  - eapply Permutation_trans; [| apply insert_by_permutation].
    now apply perm_skip.
Qed.

Lemma order_by_in {A} (le : A -> A -> bool) (l : list A) (x : A) :
  In x (order_by le l) <-> In x l.
Proof.
  split; apply Permutation_in;
    [apply Permutation_sym |]; apply order_by_permutation.
Qed.

(* ===================================================================== *)
(** * C10: the quantity bounds of search_transactions *)
(* ===================================================================== *)

Lemma decimal_truthy_zero (q : Q) : q == 0 -> decimal_truthy q = false.
Proof.
  intros H. unfold decimal_truthy. apply Qeq_eq_bool in H. now rewrite H.
Qed.

Lemma decimal_truthy_nonzero (q : Q) : ~ q == 0 -> decimal_truthy q = true.
Proof.
  intros H. unfold decimal_truthy.
  destruct (Qeq_bool q 0) eqn:E; [| reflexivity].
  apply Qeq_bool_eq in E. contradiction.
Qed.

Lemma search_transactions_returns tk sd ed ty mn mx w :
  ~ mn == 0 -> ~ mx == 0 ->
  connects w = true ->
  PortfolioCRUD_search_transactions tk sd ed ty (Some mn) (Some mx) w
  = (Return
       (order_by newest_first
          (filter (fun r =>
                     forallb (condition_holds r)
                       (other_conditions tk sd ed ty
                        ++ [Abs_quantity_ge mn; Abs_quantity_le mx]))
                  (transactions (tables w)))),
     mkWorld (tables w) (S (clock w)) (tl (outages w))).
Proof.
  intros Hmn Hmx Hc. unfold PortfolioCRUD_search_transactions.
  rewrite log_and_reraise_run, execute_query_run.
  unfold with_connection. rewrite Hc. unfold sql_search_transactions.
  unfold condition_of at 5 6.
  rewrite (decimal_truthy_nonzero mn Hmn), (decimal_truthy_nonzero mx Hmx).
  unfold other_conditions. rewrite <- !app_assoc. reflexivity.
Qed.

(** C10.  A [min_quantity] or [max_quantity] equal to zero is the same as
    none, in [PortfolioCRUD.search_transactions] and in the operation
    [search_transactions]; a bound that is not zero is compared with the
    absolute value of the stored quantity: the rows found are exactly the
    rows of the table that meet the other conditions and have
    [min_quantity <= |quantity| <= max_quantity]. *)
Theorem search_quantity_bounds
    (tk : option string) (sd ed : option date) (ty : option string)
    (sds eds : option string) (mn mx : Q) (other : option Decimal)
    (w : World) :
  (mn == 0 ->
   PortfolioCRUD_search_transactions tk sd ed ty (Some mn) other
   = PortfolioCRUD_search_transactions tk sd ed ty None other)
  /\ (mx == 0 ->
      PortfolioCRUD_search_transactions tk sd ed ty other (Some mx)
      = PortfolioCRUD_search_transactions tk sd ed ty other None)
  /\ (mn == 0 ->
      search_transactions
        (SearchTransactionsInput.mk tk sds eds ty (Some mn) other)
      = search_transactions
          (SearchTransactionsInput.mk tk sds eds ty None other))
  /\ (mx == 0 ->
      search_transactions
        (SearchTransactionsInput.mk tk sds eds ty other (Some mx))
      = search_transactions
          (SearchTransactionsInput.mk tk sds eds ty other None))
  /\ (~ mn == 0 -> ~ mx == 0 -> connects w = true ->
      exists rows w',
        PortfolioCRUD_search_transactions tk sd ed ty (Some mn) (Some mx) w
        = (Return rows, w')
        /\ forall r,
             In r rows <->
             In r (transactions (tables w))
             /\ forallb (condition_holds r) (other_conditions tk sd ed ty)
                = true
             /\ (mn <= Qabs (Transaction.quantity r))%Q
             /\ (Qabs (Transaction.quantity r) <= mx)%Q).
Proof.
  forget_schema.
  repeat split.
  - intros H. unfold PortfolioCRUD_search_transactions, condition_of.
    now rewrite (decimal_truthy_zero mn H).
  - intros H. unfold PortfolioCRUD_search_transactions, condition_of.
    now rewrite (decimal_truthy_zero mx H).
  - intros H. unfold search_transactions, decimal_if_truthy.
    cbn [SearchTransactionsInput.min_quantity
           SearchTransactionsInput.max_quantity
           SearchTransactionsInput.ticker SearchTransactionsInput.start_date
           SearchTransactionsInput.end_date
           SearchTransactionsInput.transaction_type].
    now rewrite (decimal_truthy_zero mn H).
  - intros H. unfold search_transactions, decimal_if_truthy.
    cbn [SearchTransactionsInput.min_quantity
           SearchTransactionsInput.max_quantity
           SearchTransactionsInput.ticker SearchTransactionsInput.start_date
           SearchTransactionsInput.end_date
           SearchTransactionsInput.transaction_type].
    now rewrite (decimal_truthy_zero mx H).
  - intros Hmn Hmx Hc.
    rewrite (search_transactions_returns tk sd ed ty mn mx w Hmn Hmx Hc).
    eexists _, _. split; [reflexivity |].
    intros r. rewrite order_by_in, filter_In, forallb_app.
    cbn [forallb condition_holds].
    rewrite !andb_true_iff, !Qle_bool_iff. tauto.
Qed.

(* ===================================================================== *)
(** * C9: the counters of get_ticker_analysis *)
(* ===================================================================== *)

Lemma fold_left_Qplus (l : list Q) (a : Q) :
  (fold_left Qplus l a == a + fold_right Qplus 0 l)%Q.
Proof.
  revert a. induction l as [| x l IH]; intros a; cbn.
  - ring.
  - rewrite IH. ring.
Qed.

Lemma py_sum_fold_right (l : list Q) :
  (py_sum l == fold_right Qplus 0 l)%Q.
Proof. unfold py_sum. rewrite fold_left_Qplus. ring. Qed.

Lemma fold_right_Qplus_permutation (l l' : list Q) :
  Permutation l l' -> (fold_right Qplus 0 l == fold_right Qplus 0 l')%Q.
Proof.
  induction 1 as [| x l l' _ IH | x y l | l l' l'' _ IH1 _ IH2]; cbn.
  - reflexivity.
  - now rewrite IH.
  - ring.
  - now rewrite IH1.
Qed.

Lemma filter_permutation {A} (f : A -> bool) (l l' : list A) :
  Permutation l l' -> Permutation (filter f l) (filter f l').
Proof.
  induction 1 as [| x l l' _ IH | x y l | l l' l'' _ IH1 _ IH2]; cbn.
  - apply Permutation_refl.
  - destruct (f x); [now apply perm_skip | exact IH].
  - destruct (f x), (f y); try apply Permutation_refl. apply perm_swap.
  - eapply Permutation_trans; eassumption.
Qed.

Lemma filter_filter_andb {A} (f g : A -> bool) (l : list A) :
  filter g (filter f l) = filter (fun x => f x && g x) l.
Proof.
  induction l as [| x l IH]; cbn; [reflexivity |].
  destruct (f x); cbn; [destruct (g x) |]; now rewrite IH.
Qed.

(** The sum Python computes over the rows the SELECT returned is the sum
    over the ticker's rows of that type in the table. *)
Lemma sum_of_selected_rows (ty p_ticker : string) (t : Tables) :
  py_sum (quantities_of_type ty
            (order_by newest_first (transactions_of p_ticker t)))
  == total_of_type ty p_ticker (transactions t).
Proof.
  rewrite py_sum_fold_right. unfold quantities_of_type, total_of_type.
  apply fold_right_Qplus_permutation, Permutation_map.
  unfold transactions_of. rewrite <- filter_filter_andb.
  apply filter_permutation, Permutation_sym, order_by_permutation.
Qed.

Lemma total_of_type_ignores_fraction ty p_ticker flag multiplier rows :
  total_of_type ty p_ticker (map (with_fraction flag multiplier) rows)
  = total_of_type ty p_ticker rows.
Proof.
  unfold total_of_type. f_equal.
  induction rows as [| r rows IH]; cbn; [reflexivity |].
  destruct r; cbn.
  destruct (_ && _); cbn; now rewrite IH.
Qed.

Lemma total_of_type_ignores_other_types ty p_ticker rows :
  ty = "BUY" \/ ty = "SELL" ->
  total_of_type ty p_ticker (filter is_buy_or_sell rows)
  = total_of_type ty p_ticker rows.
Proof.
  intros Hty. unfold total_of_type. f_equal. f_equal.
  rewrite filter_filter_andb. apply filter_ext. intros r.
  unfold is_buy_or_sell.
  destruct (String.eqb_spec (Transaction.transaction_type r) ty) as [E | E];
    [| now rewrite !andb_false_r].
  rewrite E. destruct Hty as [-> | ->]; cbn; now rewrite ?andb_true_r.
Qed.

Lemma get_ticker_analysis_wp (p_ticker : string) w :
  wp (PortfolioCRUD_get_ticker_analysis p_ticker)
     (fun r _ =>
        match r with
        | Raise _ => True
        | Return a =>
            analysis_ticker a = upper p_ticker
            /\ analysis_transactions a
               = order_by newest_first
                   (transactions_of (upper p_ticker) (tables w))
            /\ total_bought (analysis_metrics a)
               == total_of_type "BUY" (upper p_ticker)
                    (transactions (tables w))
            /\ total_sold (analysis_metrics a)
               == total_of_type "SELL" (upper p_ticker)
                    (transactions (tables w))
            /\ net_quantity (analysis_metrics a)
               = (total_bought (analysis_metrics a)
                  - total_sold (analysis_metrics a))%Q
            /\ total_transactions (analysis_metrics a)
               = List.length (transactions_of (upper p_ticker) (tables w))
        end) w.
Proof.
  autounfold with crud. wp_run; try exact I.
  unfold sql_select_position_by_ticker, sql_select_transactions_by_ticker in *.
  repeat match goal with
         | H : Return _ = Return _ |- _ => injection H as <- <-
         end.
  cbn [analysis_ticker analysis_transactions analysis_metrics total_bought
       total_sold net_quantity total_transactions tables].
  repeat split.
  - apply sum_of_selected_rows.
  - apply sum_of_selected_rows.
  - apply Permutation_length, Permutation_sym, order_by_permutation.
Qed.

(** C9.  The counters of [get_ticker_analysis] come from the raw
    [quantity] column alone: [total_bought] is the sum of [quantity] over
    the ticker's BUY rows, [total_sold] the sum over its SELL rows,
    [net_quantity] their difference.  The fractional flag and multiplier
    of a row do not enter the sums, and rows of any other type (DIVIDEND,
    SPLIT) contribute nothing.  So a fractional history can give a
    [net_quantity] (here 10) that differs from the [current_quantity] of
    the position (here 1). *)
Theorem ticker_analysis_counts_raw_quantities (p_ticker : string) (w : World) :
  (forall a w',
      PortfolioCRUD_get_ticker_analysis p_ticker w = (Return a, w') ->
      total_bought (analysis_metrics a)
      == total_of_type "BUY" (upper p_ticker) (transactions (tables w))
      /\ total_sold (analysis_metrics a)
         == total_of_type "SELL" (upper p_ticker) (transactions (tables w))
      /\ net_quantity (analysis_metrics a)
         = (total_bought (analysis_metrics a)
            - total_sold (analysis_metrics a))%Q)
  /\ (forall ty tk flag multiplier rows,
         total_of_type ty tk (map (with_fraction flag multiplier) rows)
         = total_of_type ty tk rows)
  /\ (forall ty tk rows,
         ty = "BUY" \/ ty = "SELL" ->
         total_of_type ty tk (filter is_buy_or_sell rows)
         = total_of_type ty tk rows)
  /\ (exists a p w',
         PortfolioCRUD_get_ticker_analysis "VWCE" fractional_world
         = (Return a, w')
         /\ analysis_position a = Some p
         /\ net_quantity (analysis_metrics a) == 10
         /\ Position.current_quantity p == 1).
Proof.
  forget_schema.
  split; [| split; [| split]].
  - intros a w' Hrun.
    pose proof (get_ticker_analysis_wp p_ticker w) as H. unfold wp in H.
    rewrite Hrun in H. cbn [fst snd] in H. tauto.
  - apply total_of_type_ignores_fraction.
  - apply total_of_type_ignores_other_types.
  - eexists _, _, _. split; [vm_compute; reflexivity |].
    split; [reflexivity |]. split; reflexivity.
Qed.

(* ===================================================================== *)
(** * C3: the percentage metrics and their zero denominators *)
(* ===================================================================== *)

Lemma count_not_zero (n : nat) :
  (0 <? n) = true -> Qeq_bool (inject_Z (Z.of_nat n)) 0 = false.
Proof.
  intros H. apply Nat.ltb_lt in H.
  destruct (Qeq_bool _ _) eqn:E; [| reflexivity].
  apply Qeq_bool_eq in E. unfold Qeq in E. cbn in E. lia.
Qed.

Lemma positive_not_zero (v : Q) :
  Qlt_bool 0 v = true -> Qeq_bool v 0 = false.
Proof.
  unfold Qlt_bool. intros H. apply negb_true_iff in H.
  destruct (Qeq_bool v 0) eqn:E; [| reflexivity].
  apply Qeq_bool_eq in E.
  assert (Hle : (v <= 0)%Q) by (rewrite E; apply Qle_refl).
  apply Qle_bool_iff in Hle. congruence.
Qed.

Lemma not_positive (v : Q) : (v <= 0)%Q -> Qlt_bool 0 v = false.
Proof.
  intros H. unfold Qlt_bool. apply Qle_bool_iff in H. now rewrite H.
Qed.

Lemma get_performance_metrics_wp w :
  wp PortfolioCRUD_get_performance_metrics
     (fun r _ =>
        (forall msg, r <> Raise (ZeroDivisionError msg))
        /\ (connects w = true ->
            (forall v, invested w = Some v -> (v <= 0)%Q) ->
            exists m, r = Return m /\ total_return_percentage m = 0%Q)
        /\ (connects w = true ->
            current_positions w = [] ->
            exists m, r = Return m /\ win_rate m = 0%Q)) w.
Proof.
  unfold PortfolioCRUD_get_performance_metrics.
  apply wp_log_and_reraise, wp_bind, wp_execute_query.
  apply wp_with_connection; [intros Hc | intros Hc];
    cbv beta iota; [repeat split; congruence |].
  unfold sql_performance_metrics.
  set (agg := aggregates_of (tables w)).
  assert (Hinv : agg_total_invested agg = invested w) by reflexivity.
  assert (Hcount : agg_total_positions agg
                   = List.length (current_positions w)) by reflexivity.
  clearbody agg.
  (* the win rate, whatever came before *)
  assert (Hrate :
    forall (total_return : Q) w1 (zero : bool),
      (zero = true ->
       (forall v, invested w = Some v -> (v <= 0)%Q) -> total_return = 0%Q) ->
      wp (rate <-
            (if 0 <? agg_total_positions agg then
               ratio <- py_div
                          (inject_Z (Z.of_nat (agg_winning_positions agg)))
                          (inject_Z (Z.of_nat (agg_total_positions agg))) ;;
               ret (ratio * 100)%Q
             else ret 0%Q) ;;
          ret (mkMetrics agg total_return rate))
        (fun r _ =>
           (forall msg, r <> Raise (ZeroDivisionError msg))
           /\ (connects w = true ->
               (forall v, invested w = Some v -> (v <= 0)%Q) ->
               zero = true ->
               exists m, r = Return m /\ total_return_percentage m = 0%Q)
           /\ (connects w = true ->
               current_positions w = [] ->
               exists m, r = Return m /\ win_rate m = 0%Q)) w1).
  { intros total_return w1 zero Hzero. apply wp_bind.
    destruct (0 <? agg_total_positions agg) eqn:Hpos.
    - apply wp_bind. unfold py_div. rewrite (count_not_zero _ Hpos).
      wp_steps. repeat split; try congruence.
      + intros _ Hle Hz. eexists. split; [reflexivity |]. cbn. auto.
      + intros _ Hnil. rewrite Hcount, Hnil in Hpos. discriminate.
    - wp_steps. repeat split; try congruence.
      + intros _ Hle Hz. eexists. split; [reflexivity |]. cbn. auto.
      + intros _ _. eexists. split; reflexivity. }
  apply wp_bind.
  destruct (agg_total_invested agg) as [v |] eqn:Hv.
  - destruct (decimal_truthy v && Qlt_bool 0 v) eqn:Hguard.
    + apply andb_true_iff in Hguard. destruct Hguard as [_ Hpos].
      assert (Hcontra : forall P : Prop,
                 (forall v0, invested w = Some v0 -> (v0 <= 0)%Q) -> P).
      { intros P Hle. rewrite <- Hinv in Hle. specialize (Hle v eq_refl).
        apply not_positive in Hle. congruence. }
      assert (Hsome : forall P : Prop, current_positions w = [] -> P).
      { intros P Hnil. unfold invested in Hinv. rewrite Hnil in Hinv.
        cbn in Hinv. congruence. }
      destruct (agg_total_market_value agg) as [value |].
      * apply wp_bind. unfold py_div. rewrite (positive_not_zero _ Hpos).
        apply wp_ret. cbv beta iota. apply wp_ret. cbv beta iota.
        eapply wp_consequence; [| apply (Hrate _ _ false); discriminate].
        intros r w' (H1 & H2 & H3). repeat split; auto.
        intros _ Hle. now apply Hcontra.
      * wp_steps. repeat split; try congruence.
        -- intros _ Hle. now apply Hcontra.
        -- intros _ Hnil. now apply Hsome.
    + apply wp_ret. cbv beta iota.
      eapply wp_consequence; [| apply (Hrate _ _ true); reflexivity].
      intros r w' (H1 & H2 & H3). repeat split; auto.
  - apply wp_ret. cbv beta iota.
    eapply wp_consequence; [| apply (Hrate _ _ true); reflexivity].
    intros r w' (H1 & H2 & H3). repeat split; auto.
Qed.

(** What [get_performance_metrics] returns, when it returns. *)
Lemma get_performance_metrics_returns (w w' : World) (m : Metrics) :
  PortfolioCRUD_get_performance_metrics w = (Return m, w') ->
  connects w = true
  /\ tables w' = tables w
  /\ aggregates m = aggregates_of (tables w)
  /\ win_rate m
     = (if 0 <? agg_total_positions (aggregates_of (tables w))
        then inject_Z (Z.of_nat (agg_winning_positions
                                   (aggregates_of (tables w))))
             / inject_Z (Z.of_nat (agg_total_positions
                                     (aggregates_of (tables w))))
             * 100
        else 0)%Q.
Proof.
  intros Hrun.
  assert (Hwp : wp PortfolioCRUD_get_performance_metrics
                  (fun r w1 =>
                     forall m, r = Return m ->
                       connects w = true
                       /\ tables w1 = tables w
                       /\ aggregates m = aggregates_of (tables w)
                       /\ win_rate m
                          = (if 0 <? agg_total_positions
                                       (aggregates_of (tables w))
                             then inject_Z
                                    (Z.of_nat (agg_winning_positions
                                                 (aggregates_of (tables w))))
                                  / inject_Z
                                      (Z.of_nat (agg_total_positions
                                                   (aggregates_of (tables w))))
                                  * 100
                             else 0)%Q) w).
  { unfold PortfolioCRUD_get_performance_metrics, sql_performance_metrics.
    wp_run; intros m0 Hm; try discriminate;
      injection Hm as <-; cbn [aggregates win_rate tables];
      repeat match goal with
             | H : (0 <? _) = _ |- _ => rewrite H
             end;
      auto. }
  unfold wp in Hwp. rewrite Hrun in Hwp. cbn [fst snd] in Hwp.
  exact (Hwp m eq_refl).
Qed.

(** C3 (amended).  [get_performance_metrics] never raises a division by
    zero.  When the store answers and no position has
    [current_quantity > 0] (in particular when the table is empty) it
    returns [total_return_percentage = 0] and [win_rate = 0].  More
    generally each percentage is guarded by its own denominator:
    [total_return_percentage] is 0 whenever the invested total is NULL,
    zero or negative, and [win_rate] is 0 whenever there is no position.
    When there are positions and the invested total is zero or negative,
    [total_return_percentage] is 0 and [win_rate] is not forced to 0: it is
    the number of positions with a positive [unrealized_gain_loss] divided
    by the number of positions, times 100. *)
Theorem performance_metrics_zero_denominators (w : World) :
  (forall msg,
      fst (PortfolioCRUD_get_performance_metrics w)
      <> Raise (ZeroDivisionError msg))
  /\ (connects w = true ->
      current_positions w = [] ->
      exists m w',
        PortfolioCRUD_get_performance_metrics w = (Return m, w')
        /\ total_return_percentage m = 0%Q
        /\ win_rate m = 0%Q)
  /\ (connects w = true ->
      (forall v, invested w = Some v -> (v <= 0)%Q) ->
      exists m w',
        PortfolioCRUD_get_performance_metrics w = (Return m, w')
        /\ total_return_percentage m = 0%Q)
  /\ (connects w = true ->
      current_positions w <> [] ->
      (forall v, invested w = Some v -> (v <= 0)%Q) ->
      exists m w',
        PortfolioCRUD_get_performance_metrics w = (Return m, w')
        /\ total_return_percentage m = 0%Q
        /\ win_rate m
           = (inject_Z (Z.of_nat (winning_positions w))
              / inject_Z (Z.of_nat (List.length (current_positions w)))
              * 100)%Q).
Proof.
  pose proof (get_performance_metrics_wp w) as H. unfold wp in H.
  pose proof (get_performance_metrics_returns w) as Hret.
  destruct (PortfolioCRUD_get_performance_metrics w) as [r w'].
  cbn [fst snd] in *. destruct H as (Hzero & Hreturn & Hrate).
  split; [exact Hzero |]. split; [| split].
  - intros Hc Hnil.
    destruct (Hrate Hc Hnil) as (m & -> & Hwin).
    assert (Hinv : forall v, invested w = Some v -> (v <= 0)%Q).
    { intros v. unfold invested. rewrite Hnil. discriminate. }
    destruct (Hreturn Hc Hinv) as (m' & Hm & Htotal).
    injection Hm as <-. now exists m, w'.
  - intros Hc Hinv.
    destruct (Hreturn Hc Hinv) as (m & -> & Htotal). now exists m, w'.
  - intros Hc Hsome Hinv.
    destruct (Hreturn Hc Hinv) as (m & -> & Htotal).
    exists m, w'. split; [reflexivity |]. split; [exact Htotal |].
    destruct (Hret w' m eq_refl) as (_ & _ & _ & ->).
    clear - Hsome. unfold winning_positions, current_positions in *.
    unfold aggregates_of.
    cbn [agg_total_positions agg_winning_positions].
    destruct (filter is_current (positions (tables w))) as [| p ps];
      [now elim Hsome | reflexivity].
Qed.

(* ===================================================================== *)
(** * C1: recalculate_all_positions stops at the first failure *)
(* ===================================================================== *)

Lemma succeeded_step (o : list bool) (n : nat) (w : World) :
  outages w = o ->
  succeeded o (S n)
  = if connects w then S (succeeded (tl o) n) else 0.
Proof.
  intros <-. unfold connects. cbn [succeeded].
  destruct (outages w) as [| [] rest]; reflexivity.
Qed.

Lemma recalculate_position_run (p_ticker : string) (w : World) :
  PositionCRUD_recalculate_position p_ticker w
  = if connects w then
      (Return true,
       mkWorld (sql_recalculate_position (upper p_ticker) (clock w) (tables w))
               (S (clock w)) (tl (outages w)))
    else
      (Raise (OperationalError "connection failed"),
       mkWorld (tables w) (clock w) (tl (outages w))).
Proof.
  unfold PositionCRUD_recalculate_position.
  rewrite log_and_reraise_run. unfold bind.
  rewrite execute_query_run. unfold with_connection.
  destruct (connects w); reflexivity.
Qed.

(** The loop of the batch: it runs the stored function for the tickers in
    order while the connections succeed, and ends at the first that
    fails. *)
Lemma recalculate_loop (tickers : list string) (w : World) :
  let s := succeeded (outages w) (List.length tickers) in
  exists w',
    for_each tickers
      (fun row => PositionCRUD_recalculate_position row ;; ret tt) w
    = (if s =? List.length tickers then Return tt
       else Raise (OperationalError "connection failed"), w')
    /\ tables w'
       = recalculate_in_order (firstn s tickers) (clock w) (tables w).
Proof.
  revert w. induction tickers as [| tk rest IH]; intros w; cbn zeta.
  - exists w. split; reflexivity.
  - cbn [List.length for_each]. unfold bind at 1 2.
    rewrite recalculate_position_run.
    rewrite (succeeded_step (outages w) (List.length rest) w eq_refl).
    destruct (connects w).
    + cbn [ret].
      set (w1 := mkWorld _ _ _).
      destruct (IH w1) as (w' & Hrun & Htables).
      exists w'. cbn [outages] in Hrun, Htables.
      change (outages w1) with (tl (outages w)) in *.
      split.
      * rewrite Hrun. cbn [Nat.eqb]. reflexivity.
      * rewrite Htables. reflexivity.
    + eexists. split; reflexivity.
Qed.

Lemma recalculate_all_positions_run (w : World) :
  let n := List.length (ledger_tickers w) in
  let s := succeeded (outages w) (S n) in
  exists w',
    PositionCRUD_recalculate_all_positions w
    = (if s =? S n then Return true
       else Raise (OperationalError "connection failed"), w')
    /\ tables w'
       = recalculate_in_order (firstn (pred s) (ledger_tickers w))
           (S (clock w)) (tables w).
Proof.
  cbn zeta. unfold PositionCRUD_recalculate_all_positions.
  rewrite log_and_reraise_run. unfold bind at 1.
  rewrite execute_query_run. unfold with_connection.
  rewrite (succeeded_step (outages w) _ w eq_refl).
  destruct (connects w).
  - unfold sql_select_distinct_tickers. fold (ledger_tickers w).
    cbv beta iota.
    set (w1 := mkWorld _ _ _).
    destruct (recalculate_loop (ledger_tickers w) w1) as (w' & Hrun & Htables).
    cbn zeta in Hrun. unfold bind at 1. rewrite Hrun.
    change (outages w1) with (tl (outages w)) in *.
    cbn [Nat.eqb pred].
    destruct (_ =? _); exists w'; (split; [reflexivity | exact Htables]).
  - eexists. split; reflexivity.
Qed.

Lemma distinct_In (x : string) (l : list string) :
  In x (distinct l) <-> In x l.
Proof.
  forget_schema.
  induction l as [| y l IH]; [reflexivity |].
  cbn [distinct In]. rewrite filter_In, IH, negb_true_iff.
  destruct (String.eqb_spec y x) as [-> | Hne]; split; intros H; auto.
  - destruct H as [H | H]; [now left | now right].
  - destruct H as [H | H]; [now left |]. right. now split.
Qed.

Lemma distinct_NoDup (l : list string) : NoDup (distinct l).
Proof.
  forget_schema.
  induction l as [| y l IH]; [constructor |].
  cbn [distinct]. constructor.
  - rewrite filter_In, String.eqb_refl. intros [_ H]. discriminate.
  - now apply NoDup_filter.
Qed.

(** C1 (amended).  The batch reads the distinct tickers of the ledger and
    runs the stored function for them one after the other, in the order
    in which the ticker query returned them; the query has no ORDER BY, so
    which order that is is the server's choice ([unordered]).  The batch
    does not isolate failures: with [s] the number of connection attempts
    that succeed before the first one that fails (one attempt for the
    ticker query, one per ticker), exactly the first [s - 1] of the
    returned tickers are recalculated, the first failure is raised at once
    and the remaining tickers are not attempted; [True] is returned only
    when no attempt failed, and then every ticker has been recalculated.
    The operation turns this into a response that carries the success flag
    and a message and no data: no count of recalculated tickers, no list
    of failures.  When the server returns the rows of the query, in
    whatever order, the tickers are those of the ledger, each once. *)
Theorem recalculate_all_positions_fail_fast (w : World) :
  let tickers := ledger_tickers w in
  let n := List.length tickers in
  let s := succeeded (outages w) (S n) in
  (exists w',
      PositionCRUD_recalculate_all_positions w
      = (if s =? S n then Return true
         else Raise (OperationalError "connection failed"), w')
      /\ tables w'
         = recalculate_in_order (firstn (pred s) tickers)
             (S (clock w)) (tables w))
  /\ (exists w',
         recalculate_all_positions w
         = (Return
              (OperationResponse.mk (s =? S n)
                 (if s =? S n then "Successfully recalculated all positions"
                  else "Error recalculating all positions: connection failed")
                 None), w')
         /\ tables w'
            = recalculate_in_order (firstn (pred s) tickers)
                (S (clock w)) (tables w))
  /\ (s = S n -> firstn (pred s) tickers = tickers)
  /\ ((forall l, Permutation (unordered l) l) ->
      NoDup tickers
      /\ forall tk,
           In tk tickers <->
           exists r, In r (transactions (tables w))
                     /\ Transaction.ticker r = tk).
Proof.
  cbn zeta.
  destruct (recalculate_all_positions_run w) as (w' & Hrun & Htables).
  cbn zeta in Hrun. split; [| split; [| split]].
  - now exists w'.
  - exists w'. split; [| exact Htables].
    unfold recalculate_all_positions, try_except, bind. rewrite Hrun.
    destruct (_ =? _); reflexivity.
  - intros ->. cbn [pred]. apply firstn_all.
  - intros Hperm. unfold ledger_tickers. split.
    + eapply Permutation_NoDup; [symmetry; apply Hperm |].
      apply distinct_NoDup.
    + intros tk. split.
      * intros Hin.
        apply (Permutation_in _ (Hperm _)), distinct_In, in_map_iff in Hin.
        destruct Hin as (r & Hr & Hin). now exists r.
      * intros (r & Hin & Hr).
        apply (Permutation_in _ (Permutation_sym (Hperm _))), distinct_In,
          in_map_iff.
        now exists r.
Qed.

(* ===================================================================== *)
(** * C7: the market fields of a position *)
(* ===================================================================== *)

Lemma refresh_position_inv s p : position_inv (refresh_position s p).
Proof. split; reflexivity. Qed.

Lemma new_position_inv tk s now : position_inv (new_position tk s now).
Proof. split; reflexivity. Qed.

Lemma has_position_false tk ps :
  has_position tk ps = false -> ~ In tk (map Position.ticker ps).
Proof.
  forget_schema.
  unfold has_position. induction ps as [| p ps IH]; cbn; [tauto |].
  intros H. apply orb_false_iff in H. destruct H as [Hp Hps].
  intros [E | Hin]; [| now apply IH].
  rewrite E, String.eqb_refl in Hp. discriminate.
Qed.

Lemma NoDup_map_filter {A B} (f : A -> B) (g : A -> bool) (l : list A) :
  NoDup (map f l) -> NoDup (map f (filter g l)).
Proof.
  induction l as [| x l IH]; cbn; [auto |].
  intros H. inversion H as [| ? ? Hnotin Hrest]; subst.
  destruct (g x); cbn; [constructor |]; auto.
  intros Hin. apply Hnotin. apply in_map_iff in Hin.
  destruct Hin as (y & Hy & Hin). apply filter_In in Hin.
  apply in_map_iff. exists y. tauto.
Qed.

Lemma upsert_position_inv tk s now ps :
  NoDup (map Position.ticker ps) -> Forall position_inv ps ->
  NoDup (map Position.ticker (upsert_position tk s now ps))
  /\ Forall position_inv (upsert_position tk s now ps).
Proof.
  forget_schema.
  intros Hnd Hinv. unfold upsert_position.
  destruct (has_position tk ps) eqn:Hhas.
  - split.
    + rewrite map_map.
      erewrite map_ext; [exact Hnd |].
      intros p. destruct (String.eqb _ _); reflexivity.
    + apply Forall_map. revert Hinv. apply Forall_impl. intros p Hp.
      destruct (String.eqb _ _); [apply refresh_position_inv | exact Hp].
  - destruct (Qeq_bool _ _); [now split |]. split.
    + rewrite map_app. cbn. apply NoDup_app; [exact Hnd | | ].
      * constructor; [cbn; tauto | constructor].
      * intros x Hin [<- | []]. now apply (has_position_false tk ps).
    + apply Forall_app. split; [exact Hinv |].
      constructor; [apply new_position_inv | constructor].
Qed.

Lemma sql_recalculate_position_inv tk now t :
  positions_inv t -> positions_inv (sql_recalculate_position tk now t).
Proof.
  intros [Hnd Hinv]. unfold sql_recalculate_position, positions_inv.
  destruct (recalculate _) as [s |]; cbn [positions].
  - now apply upsert_position_inv.
  - split.
    + now apply NoDup_map_filter.
    + unfold delete_position. apply Forall_forall. intros p Hp.
      apply filter_In in Hp. rewrite Forall_forall in Hinv.
      now apply Hinv.
Qed.

Lemma trigger_recalculate_position_inv tickers now t :
  positions_inv t -> positions_inv (trigger_recalculate_position tickers now t).
Proof.
  unfold trigger_recalculate_position. revert t.
  induction tickers as [| tk rest IH]; intros t H; cbn; [exact H |].
  apply IH. now apply sql_recalculate_position_inv.
Qed.

Lemma preserves_ret {A} (a : A) : preserves (ret a).
Proof. intros w H. exact H. Qed.

Lemma preserves_raise {A} (e : PyExc) : preserves (@raise A e).
Proof. intros w H. exact H. Qed.

Lemma preserves_lift {A} (r : Py A) : preserves (lift r).
Proof. intros w H. exact H. Qed.

Lemma preserves_datetime_now : preserves datetime_now.
Proof. intros w H. exact H. Qed.

Lemma preserves_bind {A B} (m : M A) (k : A -> M B) :
  preserves m -> (forall a, preserves (k a)) -> preserves (bind m k).
Proof.
  intros Hm Hk w H. specialize (Hm w H). unfold bind.
  destruct (m w) as [[a | e] w1]; cbn [snd] in *.
  - now apply Hk.
  - exact Hm.
Qed.

Lemma preserves_try_except {A} (body : M A) (handler : PyExc -> M A) :
  preserves body -> (forall e, preserves (handler e)) ->
  preserves (try_except body handler).
Proof.
  intros Hb Hh w H. specialize (Hb w H). unfold try_except.
  destruct (body w) as [[a | e] w1]; cbn [snd] in *.
  - exact Hb.
  - now apply Hh.
Qed.

Lemma preserves_log_and_reraise {A} (m : M A) :
  preserves m -> preserves (log_and_reraise m).
Proof. intros Hm w H. rewrite log_and_reraise_run. now apply Hm. Qed.

Lemma preserves_with_connection {A} (stmt : Statement A) :
  statement_preserves stmt -> preserves (with_connection stmt).
Proof.
  intros Hs w H. unfold with_connection.
  destruct (connects w); [| exact H].
  destruct (stmt (clock w) (tables w)) as [[a t'] | e] eqn:E; cbn.
  - eapply Hs; eassumption.
  - exact H.
Qed.

Lemma preserves_execute_query {A} (stmt : Statement A) :
  statement_preserves stmt -> preserves (execute_query stmt).
Proof.
  intros H. apply preserves_log_and_reraise. now apply preserves_with_connection.
Qed.

Lemma preserves_execute_command (stmt : Statement nat) :
  statement_preserves stmt -> preserves (execute_command stmt).
Proof.
  intros H. apply preserves_log_and_reraise. now apply preserves_with_connection.
Qed.

Lemma preserves_for_each {A} (xs : list A) (body : A -> M unit) :
  (forall x, preserves (body x)) -> preserves (for_each xs body).
Proof.
  intros Hb. induction xs as [| x xs IH]; cbn [for_each].
  - apply preserves_ret.
  - apply preserves_bind; [apply Hb | intros _; exact IH].
Qed.

Lemma preserves_response success msg data :
  preserves (OperationResponse_new success msg data).
Proof.
  intros w H. unfold OperationResponse_new.
  destruct data as [[] |]; try exact H;
    destruct (coerce_to_dict _); exact H.
Qed.

Lemma preserves_py_div a b : preserves (py_div a b).
Proof. intros w H. unfold py_div. destruct (Qeq_bool b 0); exact H. Qed.

(** Statements that only read. *)
Lemma reading_preserves {A} (stmt : Statement A) :
  (forall now t a t', stmt now t = Return (a, t') -> t' = t) ->
  statement_preserves stmt.
Proof. intros Hread now t a t' H E. apply Hread in E. now subst. Qed.

Lemma keeps_positions_inv (t : Tables) rows n :
  positions_inv t -> positions_inv (mkTables rows (positions t) n).
Proof. exact (fun H => H). Qed.

Lemma Return_pair_eq {A B} (a a' : A) (b b' : B) :
  @Return (A * B) (a, b) = Return (a', b') -> a = a' /\ b = b'.
Proof. intros H. now injection H. Qed.

Lemma sql_insert_transaction_preserves params :
  statement_preserves (sql_insert_transaction params).
Proof.
  intros now t a t' H. unfold sql_insert_transaction.
  destruct (transactions_check _); [| discriminate].
  intros E. apply Return_pair_eq in E. destruct E as [<- <-].
  apply trigger_recalculate_position_inv. exact H.
Qed.

Lemma sql_update_transaction_preserves fields transaction_id :
  statement_preserves (sql_update_transaction fields transaction_id).
Proof.
  intros now t a t' H. unfold sql_update_transaction.
  destruct (uuid_of _); [| discriminate].
  destruct (forallb _ _); [| discriminate].
  intros E. apply Return_pair_eq in E. destruct E as [<- <-].
  apply trigger_recalculate_position_inv. exact H.
Qed.

Lemma sql_delete_transaction_preserves transaction_id :
  statement_preserves (sql_delete_transaction transaction_id).
Proof.
  intros now t a t' H. unfold sql_delete_transaction.
  destruct (uuid_of _); [| discriminate].
  intros E. apply Return_pair_eq in E. destruct E as [<- <-].
  apply trigger_recalculate_position_inv. exact H.
Qed.

Lemma sql_call_recalculate_position_preserves tk :
  statement_preserves (sql_call_recalculate_position tk).
Proof.
  intros now t a t' H. unfold sql_call_recalculate_position.
  intros E. injection E as <- <-.
  now apply sql_recalculate_position_inv.
Qed.

Ltac reads :=
  apply reading_preserves; intros now t a t' E;
  repeat match type of E with
         | match ?x with _ => _ end = _ => destruct x; try discriminate
         end;
  now injection E.

Lemma sql_select_transaction_by_id_preserves transaction_id :
  statement_preserves (sql_select_transaction_by_id transaction_id).
Proof. unfold sql_select_transaction_by_id. reads. Qed.

Lemma sql_select_transactions_by_ticker_preserves tk :
  statement_preserves (sql_select_transactions_by_ticker tk).
Proof. unfold sql_select_transactions_by_ticker. reads. Qed.

Lemma sql_select_position_by_ticker_preserves tk :
  statement_preserves (sql_select_position_by_ticker tk).
Proof. unfold sql_select_position_by_ticker. reads. Qed.

Lemma sql_select_current_positions_preserves :
  statement_preserves sql_select_current_positions.
Proof. unfold sql_select_current_positions. reads. Qed.

Lemma sql_select_portfolio_summary_preserves :
  statement_preserves sql_select_portfolio_summary.
Proof. unfold sql_select_portfolio_summary. reads. Qed.

Lemma sql_select_distinct_tickers_preserves :
  statement_preserves sql_select_distinct_tickers.
Proof. unfold sql_select_distinct_tickers. reads. Qed.

Lemma sql_performance_metrics_preserves :
  statement_preserves sql_performance_metrics.
Proof. unfold sql_performance_metrics. reads. Qed.

Lemma sql_search_transactions_preserves conditions :
  statement_preserves (sql_search_transactions conditions).
Proof. unfold sql_search_transactions. reads. Qed.

Lemma get_position_by_ticker_run (p_ticker : string) (w : World) :
  PositionCRUD_get_position_by_ticker p_ticker w
  = if connects w then
      (Return (find_position (upper p_ticker) (tables w)),
       mkWorld (tables w) (S (clock w)) (tl (outages w)))
    else
      (Raise (OperationalError "connection failed"),
       mkWorld (tables w) (clock w) (tl (outages w))).
Proof.
  unfold PositionCRUD_get_position_by_ticker.
  rewrite log_and_reraise_run. unfold bind.
  rewrite execute_query_run. unfold with_connection.
  destruct (connects w); reflexivity.
Qed.

Lemma update_position_market_data_run (update : PositionUpdate.t) (w : World) :
  let tk := upper (PositionUpdate.ticker update) in
  let hit := fun p => String.eqb (Position.ticker p) tk in
  let read := find_position tk (tables w) in
  let observed := match PositionUpdate.last_price_update update with
                  | Some t => t
                  | None => S (clock w)
                  end in
  PositionCRUD_update_position_market_data update w
  = if connects w then
      if connects (mkWorld (tables w) (S (clock w)) (tl (outages w))) then
        (Return (0 <? List.length (filter hit (positions (tables w)))),
         mkWorld
           (mkTables (transactions (tables w))
              (map (fun p =>
                      if hit p
                      then priced (PositionUpdate.current_price update) read
                                  observed (S (clock w)) p
                      else p) (positions (tables w)))
              (next_id (tables w)))
           (S (S (clock w))) (tl (tl (outages w))))
      else
        (Raise (OperationalError "connection failed"),
         mkWorld (tables w) (S (clock w)) (tl (tl (outages w))))
    else
      (Raise (OperationalError "connection failed"),
       mkWorld (tables w) (clock w) (tl (outages w))).
Proof.
  cbn zeta. unfold PositionCRUD_update_position_market_data.
  unfold bind at 1. rewrite get_position_by_ticker_run.
  destruct (connects w); [| reflexivity].
  unfold bind at 1.
  destruct (PositionUpdate.last_price_update update) as [observed |];
    cbn [ret datetime_now fst snd clock];
    rewrite log_and_reraise_run; unfold bind;
    rewrite execute_command_run; unfold with_connection;
    cbn [clock tables outages];
    match goal with |- context [connects ?x] => destruct (connects x) end;
    reflexivity.
Qed.

Lemma first_hit_unique (p_ticker : string) (ps : list Position.row) p :
  NoDup (map Position.ticker ps) ->
  In p ps -> Position.ticker p = p_ticker ->
  hd_error (filter (fun q => String.eqb (Position.ticker q) p_ticker) ps)
  = Some p.
Proof.
  forget_schema.
  induction ps as [| p0 ps IH]; cbn; [tauto |].
  intros Hnd Hin Htk. inversion Hnd as [| ? ? Hnotin Hrest]; subst.
  destruct (String.eqb_spec (Position.ticker p0) (Position.ticker p)) as [E | E].
  - cbn. destruct Hin as [-> | Hin]; [reflexivity |].
    exfalso. apply Hnotin. rewrite E. now apply in_map.
  - destruct Hin as [-> | Hin]; [congruence |]. now apply IH.
Qed.

Lemma update_position_market_data_preserves update :
  preserves (PositionCRUD_update_position_market_data update).
Proof.
  intros w [Hnd Hinv].
  pose proof (update_position_market_data_run update w) as Hrun.
  cbn zeta in Hrun. rewrite Hrun. clear Hrun.
  destruct (connects w); [| now split].
  destruct (connects _); [| now split].
  cbn [snd tables]. split; cbn [positions].
  - rewrite map_map. erewrite map_ext; [exact Hnd |].
    intros p. destruct (String.eqb _ _); reflexivity.
  - apply Forall_forall. intros q Hq. apply in_map_iff in Hq.
    destruct Hq as (p & <- & Hp).
    destruct (String.eqb_spec (Position.ticker p)
                (upper (PositionUpdate.ticker update))) as [E | E].
    + unfold find_position.
      rewrite (first_hit_unique _ _ p Hnd Hp E).
      split; reflexivity.
    + rewrite Forall_forall in Hinv. now apply Hinv.
Qed.

(** What a successful market-data update leaves in the row it names. *)
Lemma update_position_market_data_stores update w w' :
  PositionCRUD_update_position_market_data update w = (Return true, w') ->
  exists p,
    find_position (upper (PositionUpdate.ticker update)) (tables w') = Some p
    /\ Position.current_price p = Some (PositionUpdate.current_price update)
    /\ Position.current_market_value p
       = Some (Position.current_quantity p
               * PositionUpdate.current_price update)%Q
    /\ Position.unrealized_gain_loss p
       = Some (Position.current_quantity p
               * PositionUpdate.current_price update
               - Position.total_cost_basis p)%Q.
Proof.
  pose proof (update_position_market_data_run update w) as Hrun.
  cbn zeta in Hrun. rewrite Hrun. clear Hrun.
  destruct (connects w); [| discriminate].
  destruct (connects _); [| discriminate].
  intros H. injection H as Hcount <-.
  unfold find_position in *. cbn [tables positions].
  set (tk := upper (PositionUpdate.ticker update)) in *.
  induction (positions (tables w)) as [| p0 ps IH]; [discriminate |].
  cbn [filter map] in *.
  destruct (String.eqb (Position.ticker p0) tk) eqn:E.
  - cbn [priced Position.ticker filter]. rewrite E.
    eexists. split; [reflexivity |]. cbn. repeat split.
  - rewrite E. apply IH. exact Hcount.
Qed.

Ltac preserves_step :=
  lazymatch goal with
  | |- preserves (bind _ _) => apply preserves_bind; [| intros ?]
  | |- preserves (try_except _ _) => apply preserves_try_except; [| intros ?]
  | |- preserves (log_and_reraise _) => apply preserves_log_and_reraise
  | |- preserves (execute_query _) => apply preserves_execute_query
  | |- preserves (execute_command _) => apply preserves_execute_command
  | |- preserves (ret _) => apply preserves_ret
  | |- preserves (raise _) => apply preserves_raise
  | |- preserves (lift _) => apply preserves_lift
  | |- preserves datetime_now => apply preserves_datetime_now
  | |- preserves (py_div _ _) => apply preserves_py_div
  | |- preserves (OperationResponse_new _ _ _) => apply preserves_response
  | |- preserves (for_each _ _) => apply preserves_for_each; intros ?
  | |- preserves (PositionCRUD_update_position_market_data _) =>
      apply update_position_market_data_preserves
  | |- preserves (match ?x with _ => _ end) => destruct x
  | |- statement_preserves (sql_insert_transaction _) =>
      apply sql_insert_transaction_preserves
  | |- statement_preserves (sql_update_transaction _ _) =>
      apply sql_update_transaction_preserves
  | |- statement_preserves (sql_delete_transaction _) =>
      apply sql_delete_transaction_preserves
  | |- statement_preserves (sql_call_recalculate_position _) =>
      apply sql_call_recalculate_position_preserves
  | |- statement_preserves (sql_select_transaction_by_id _) =>
      apply sql_select_transaction_by_id_preserves
  | |- statement_preserves (sql_select_transactions_by_ticker _) =>
      apply sql_select_transactions_by_ticker_preserves
  | |- statement_preserves (sql_select_position_by_ticker _) =>
      apply sql_select_position_by_ticker_preserves
  | |- statement_preserves sql_select_current_positions =>
      apply sql_select_current_positions_preserves
  | |- statement_preserves sql_select_portfolio_summary =>
      apply sql_select_portfolio_summary_preserves
  | |- statement_preserves sql_select_distinct_tickers =>
      apply sql_select_distinct_tickers_preserves
  | |- statement_preserves sql_performance_metrics =>
      apply sql_performance_metrics_preserves
  | |- statement_preserves (sql_search_transactions _) =>
      apply sql_search_transactions_preserves
  end.

Lemma create_transaction_crud_preserves transaction :
  preserves (TransactionCRUD_create_transaction transaction).
Proof. unfold TransactionCRUD_create_transaction. repeat preserves_step. Qed.

(** Every operation keeps the invariant of the positions table. *)
Lemma run_operation_preserves (op : Operation) : preserves (run_operation op).
Proof.
  destruct op; cbn [run_operation];
    autounfold with operations;
    repeat first
      [ preserves_step
      | lazymatch goal with
        | |- preserves (PositionCRUD_update_position_market_data _) => fail
        | |- preserves _ => progress autounfold with crud
        end ].
Qed.

Lemma reachable_positions_inv w : reachable w -> positions_inv (tables w).
Proof.
  induction 1 as [w Hempty | w op _ IH | w transaction _ IH].
  - unfold positions_inv. rewrite Hempty. split; constructor.
  - now apply run_operation_preserves.
  - now apply create_transaction_crud_preserves.
Qed.

(** C7.  In every world the system can reach, every position row has
    [current_market_value = current_quantity * current_price] and
    [unrealized_gain_loss = current_market_value - total_cost_basis] when
    its price is set, and both fields NULL while it has no price.  In
    particular, after [update_position_market_data] succeeds, the row it
    names holds the new price and the two fields computed from it. *)
Theorem position_market_fields_consistent :
  (forall w p,
      reachable w -> In p (positions (tables w)) ->
      match Position.current_price p with
      | Some price =>
          Position.current_market_value p
          = Some (Position.current_quantity p * price)%Q
          /\ Position.unrealized_gain_loss p
             = Some (Position.current_quantity p * price
                     - Position.total_cost_basis p)%Q
      | None =>
          Position.current_market_value p = None
          /\ Position.unrealized_gain_loss p = None
      end)
  /\ (forall update w w',
         PositionCRUD_update_position_market_data update w
         = (Return true, w') ->
         exists p,
           find_position (upper (PositionUpdate.ticker update)) (tables w')
           = Some p
           /\ Position.current_price p
              = Some (PositionUpdate.current_price update)
           /\ Position.current_market_value p
              = Some (Position.current_quantity p
                      * PositionUpdate.current_price update)%Q
           /\ Position.unrealized_gain_loss p
              = Some (Position.current_quantity p
                      * PositionUpdate.current_price update
                      - Position.total_cost_basis p)%Q).
Proof.
  split.
  - intros w p Hw Hp.
    destruct (reachable_positions_inv w Hw) as [_ Hinv].
    rewrite Forall_forall in Hinv. destruct (Hinv p Hp) as [Hv Hg].
    rewrite Hv, Hg. destruct (Position.current_price p); split; reflexivity.
  - apply update_position_market_data_stores.
Qed.

(* ===================================================================== *)
(** * C2: recalculation is a function of the ticker's transactions *)
(* ===================================================================== *)

Lemma refresh_position_ticker s p :
  Position.ticker (refresh_position s p) = Position.ticker p.
Proof. reflexivity. Qed.

Lemma refresh_position_twice s p :
  refresh_position s (refresh_position s p) = refresh_position s p.
Proof. reflexivity. Qed.

Lemma refresh_new_position tk s now :
  refresh_position s (new_position tk s now) = new_position tk s now.
Proof. reflexivity. Qed.

Lemma has_position_map tk (f : Position.row -> Position.row) ps :
  (forall p, Position.ticker (f p) = Position.ticker p) ->
  has_position tk (map f ps) = has_position tk ps.
Proof.
  intros Hf. unfold has_position.
  induction ps as [| p ps IH]; cbn; [reflexivity |].
  now rewrite Hf, IH.
Qed.

Lemma map_not_hit tk (f : Position.row -> Position.row) ps :
  has_position tk ps = false ->
  map (fun p => if String.eqb (Position.ticker p) tk then f p else p) ps = ps.
Proof.
  unfold has_position.
  induction ps as [| p ps IH]; cbn; [reflexivity |].
  intros H. apply orb_false_iff in H. destruct H as [Hp Hps].
  now rewrite Hp, IH.
Qed.

(** Writing the same snapshot a second time changes nothing, whenever the
    second write happens. *)
Lemma upsert_position_twice tk s now now' ps :
  upsert_position tk s now' (upsert_position tk s now ps)
  = upsert_position tk s now ps.
Proof.
  unfold upsert_position at 2.
  destruct (has_position tk ps) eqn:Hhas.
  - unfold upsert_position.
    rewrite has_position_map, Hhas
      by (intros p; destruct (String.eqb _ _); reflexivity).
    rewrite map_map. apply map_ext. intros p.
    destruct (String.eqb (Position.ticker p) tk) eqn:E.
    + rewrite refresh_position_ticker, E. apply refresh_position_twice.
    + now rewrite E.
  - destruct (Qeq_bool (snap_quantity s) 0) eqn:Hzero.
    + unfold upsert_position. now rewrite Hhas, Hzero.
    + unfold upsert_position.
      assert (Hnow : has_position tk (ps ++ [new_position tk s now]) = true).
      { unfold has_position. rewrite existsb_app. cbn.
        rewrite String.eqb_refl. now rewrite orb_true_r. }
      rewrite Hnow, map_app, (map_not_hit tk _ ps Hhas). cbn.
      rewrite String.eqb_refl, Hhas, Hzero. reflexivity.
Qed.

Lemma delete_position_twice tk ps :
  delete_position tk (delete_position tk ps) = delete_position tk ps.
Proof.
  unfold delete_position.
  induction ps as [| p ps IH]; cbn; [reflexivity |].
  destruct (negb (String.eqb (Position.ticker p) tk)) eqn:E; cbn.
  - now rewrite E, IH.
  - exact IH.
Qed.

(** The stored function reads the ticker's transactions only: on two
    databases that agree on them and on the positions table it writes the
    same positions. *)
Lemma sql_recalculate_position_reads tk now' t t' :
  transactions_of tk t' = transactions_of tk t ->
  positions t' = positions t ->
  positions (sql_recalculate_position tk now' t')
  = match recalculate (transactions_of tk t) with
    | Some s => upsert_position tk s now' (positions t)
    | None => delete_position tk (positions t)
    end.
Proof.
  intros Htx Hpos. unfold sql_recalculate_position. rewrite Htx, Hpos.
  destruct (recalculate _); reflexivity.
Qed.

Lemma transactions_of_recalculated tk tk' now t :
  transactions_of tk (sql_recalculate_position tk' now t)
  = transactions_of tk t.
Proof.
  unfold transactions_of. now rewrite sql_recalculate_position_transactions.
Qed.

(** Running the stored function again, with the ticker's transactions and
    the positions as the first run left them, writes nothing new. *)
Lemma sql_recalculate_position_again tk now now' t t' :
  transactions_of tk t'
  = transactions_of tk (sql_recalculate_position tk now t) ->
  positions t' = positions (sql_recalculate_position tk now t) ->
  positions (sql_recalculate_position tk now' t')
  = positions (sql_recalculate_position tk now t).
Proof.
  intros Htx Hpos.
  rewrite (sql_recalculate_position_reads tk now' _ _ Htx Hpos).
  rewrite transactions_of_recalculated.
  unfold sql_recalculate_position.
  destruct (recalculate (transactions_of tk t)) as [s |]; cbn [positions].
  - apply upsert_position_twice.
  - apply delete_position_twice.
Qed.

(** Every row of the ticker that a recalculation leaves holds the
    snapshot that [recalculate] derives from the ticker's transactions,
    whatever the positions table held before. *)
Lemma sql_recalculate_position_writes tk now t p :
  In p (positions (sql_recalculate_position tk now t)) ->
  Position.ticker p = tk ->
  exists s,
    recalculate (transactions_of tk t) = Some s
    /\ Position.current_quantity p = snap_quantity s
    /\ Position.avg_cost_per_share p = snap_avg_cost s
    /\ Position.total_cost_basis p = snap_cost_basis s
    /\ Position.primary_currency p = snap_currency s.
Proof.
  unfold sql_recalculate_position.
  destruct (recalculate (transactions_of tk t)) as [s |]; cbn [positions];
    intros Hin Htk.
  - exists s. split; [reflexivity |].
    unfold upsert_position in Hin.
    destruct (has_position tk (positions t)) eqn:Hhas.
    + apply in_map_iff in Hin. destruct Hin as (q & <- & Hq).
      destruct (String.eqb (Position.ticker q) tk) eqn:E.
      * repeat split.
      * apply String.eqb_neq in E. contradiction.
    + assert (Hold : ~ In p (positions t)).
      { intros Hp. apply (has_position_false tk _ Hhas).
        rewrite <- Htk. now apply in_map. }
      destruct (Qeq_bool (snap_quantity s) 0); [contradiction |].
      apply in_app_or in Hin. destruct Hin as [Hp | [<- | []]];
        [contradiction | repeat split].
  - unfold delete_position in Hin. apply filter_In in Hin.
    destruct Hin as [_ Hne]. rewrite Htk, String.eqb_refl in Hne.
    discriminate.
Qed.

Lemma recalculate_position_returns p_ticker w w1 :
  PositionCRUD_recalculate_position p_ticker w = (Return true, w1) ->
  tables w1
  = sql_recalculate_position (upper p_ticker) (clock w) (tables w).
Proof.
  rewrite recalculate_position_run.
  destruct (connects w); [| discriminate].
  intros H. injection H as <-. reflexivity.
Qed.

(** C2.  Recalculation is idempotent: when [recalculate_position] has run
    for a ticker and runs again with that ticker's transactions and the
    positions table unchanged in between, the positions table after the
    second run is the table after the first, field for field.  And what it
    derives is a function of the ticker's transactions alone: in two
    worlds that agree on those transactions, whatever their positions
    tables held, the rows of the ticker after recalculation carry the same
    quantity, average cost, cost basis and currency, namely the snapshot
    that [recalculate] computes from the transactions. *)
Theorem recalculate_position_idempotent (p_ticker : string) :
  (forall w w1 w1' w2,
      PositionCRUD_recalculate_position p_ticker w = (Return true, w1) ->
      transactions_of (upper p_ticker) (tables w1')
      = transactions_of (upper p_ticker) (tables w1) ->
      positions (tables w1') = positions (tables w1) ->
      PositionCRUD_recalculate_position p_ticker w1' = (Return true, w2) ->
      positions (tables w2) = positions (tables w1))
  /\ (forall wa wa' wb wb' pa pb,
         transactions_of (upper p_ticker) (tables wa)
         = transactions_of (upper p_ticker) (tables wb) ->
         PositionCRUD_recalculate_position p_ticker wa = (Return true, wa') ->
         PositionCRUD_recalculate_position p_ticker wb = (Return true, wb') ->
         In pa (positions (tables wa')) ->
         In pb (positions (tables wb')) ->
         Position.ticker pa = upper p_ticker ->
         Position.ticker pb = upper p_ticker ->
         derived_fields pa = derived_fields pb
         /\ exists s,
              recalculate (transactions_of (upper p_ticker) (tables wa))
              = Some s
              /\ derived_fields pa
                 = (snap_quantity s, snap_avg_cost s, snap_cost_basis s,
                    snap_currency s)).
Proof.
  split.
  - intros w w1 w1' w2 H1 Htx Hpos H2.
    apply recalculate_position_returns in H1, H2.
    rewrite H2. rewrite H1 in Htx, Hpos |- *.
    now apply sql_recalculate_position_again.
  - intros wa wa' wb wb' pa pb Htx Ha Hb Hpa Hpb Hta Htb.
    apply recalculate_position_returns in Ha, Hb.
    rewrite Ha in Hpa. rewrite Hb in Hpb.
    apply sql_recalculate_position_writes in Hpa; [| exact Hta].
    apply sql_recalculate_position_writes in Hpb; [| exact Htb].
    destruct Hpa as (sa & Hsa & Ha1 & Ha2 & Ha3 & Ha4).
    destruct Hpb as (sb & Hsb & Hb1 & Hb2 & Hb3 & Hb4).
    rewrite <- Htx, Hsa in Hsb. injection Hsb as <-.
    unfold derived_fields.
    rewrite Ha1, Ha2, Ha3, Ha4, Hb1, Hb2, Hb3, Hb4.
    split; [reflexivity |]. exists sa. now split.
Qed.

End Portfolio.

(* ===================================================================== *)
(** * The date parser on a few strings *)
(* ===================================================================== *)

Example strptime_ymd_padded :
  strptime_ymd "2024-03-01" = Some (mkdate 2024 3 1).
Proof. reflexivity. Qed.

Example strptime_ymd_unpadded :
  strptime_ymd "2024-3-1" = Some (mkdate 2024 3 1).
Proof. reflexivity. Qed.

Example strptime_ymd_space_padded_day :
  strptime_ymd "2024-03- 1" = Some (mkdate 2024 3 1).
Proof. reflexivity. Qed.

Example strptime_ymd_space_padded_month : strptime_ymd "2024- 3-01" = None.
Proof. reflexivity. Qed.

Example strptime_ymd_three_digit_day : strptime_ymd "2024-03-001" = None.
Proof. reflexivity. Qed.

Example strptime_ymd_year_zero : strptime_ymd "0000-03-01" = None.
Proof. reflexivity. Qed.

Example strptime_ymd_no_such_day : strptime_ymd "2023-02-29" = None.
Proof. reflexivity. Qed.

(** The length of a ticker is counted in characters: an accented letter
    is two bytes and one character. *)
Example char_length_accented :
  char_length (String (ascii_of_nat 195) (String (ascii_of_nat 137) "COLE")) = 5
  /\ String.length
       (String (ascii_of_nat 195) (String (ascii_of_nat 137) "COLE")) = 6.
Proof. split; reflexivity. Qed.

Example strptime_ymd_other_format : strptime_ymd "01/03/2024" = None.
Proof. reflexivity. Qed.

Example strptime_ymd_trailing_text : strptime_ymd "2024-03-01T10:00" = None.
Proof. reflexivity. Qed.

(* ===================================================================== *)
(** * The recalculation on the examples of the specification *)
(* ===================================================================== *)

(** BUY 10 at 100 then BUY 10 at 200: 20 shares at an average of 150. *)
Example recalculate_average_cost :
  match recalculate two_buys with
  | Some s => snap_quantity s == 20 /\ snap_avg_cost s == 150
              /\ snap_cost_basis s == 3000
  | None => False
  end.
Proof. vm_compute. repeat split. Qed.

(** Selling 5 of them leaves 15 shares and a cost basis of 2250. *)
Example recalculate_sell_reduces_proportionally :
  match recalculate (two_buys ++ [sell_row 3 "X" 5 250 (mkdate 2024 1 4)]) with
  | Some s => snap_quantity s == 15 /\ snap_avg_cost s == 150
              /\ snap_cost_basis s == 2250
  | None => False
  end.
Proof. vm_compute. repeat split. Qed.

(** The fold goes by date, not by insertion order. *)
Example recalculate_order_independent :
  match recalculate (sell_row 3 "X" 5 250 (mkdate 2024 1 4) :: two_buys) with
  | Some s => snap_quantity s == 15 /\ snap_cost_basis s == 2250
  | None => False
  end.
Proof. vm_compute. repeat split. Qed.

(** A ticker with no transaction is not found. *)
Example recalculate_not_found : recalculate [] = None.
Proof. reflexivity. Qed.

(* ===================================================================== *)
(** * The theorems at concrete requests and worlds *)
(* ===================================================================== *)

(** C1, as the claim states it, fails in [two_ticker_world], whichever of
    the two tickers the server returns first: the first recalculation
    cannot connect; the batch raises instead of returning a summary, the
    other ticker is left without its position although its own
    recalculation would have succeeded, and the response of the operation
    carries no data. *)
Lemma batch_aborts_at_first_failure :
  (ledger_tickers first_seen_order two_ticker_world = ["AAA"; "BBB"]
   /\ fst (PositionCRUD_recalculate_all_positions first_seen_order
             two_ticker_world)
      = Raise (OperationalError "connection failed")
   /\ find_position "BBB"
        (tables (snd (PositionCRUD_recalculate_all_positions first_seen_order
                        two_ticker_world)))
      = None
   /\ (exists p w',
          PositionCRUD_recalculate_position "BBB"
            (snd (PositionCRUD_recalculate_all_positions first_seen_order
                    two_ticker_world))
          = (Return true, w')
          /\ find_position "BBB" (tables w') = Some p)
   /\ fst (recalculate_all_positions reject_non_dict first_seen_order
             two_ticker_world)
      = Return (OperationResponse.mk false
                  "Error recalculating all positions: connection failed"
                  None))
  /\ (ledger_tickers last_seen_order two_ticker_world = ["BBB"; "AAA"]
      /\ fst (PositionCRUD_recalculate_all_positions last_seen_order
                two_ticker_world)
         = Raise (OperationalError "connection failed")
      /\ find_position "AAA"
           (tables (snd (PositionCRUD_recalculate_all_positions
                           last_seen_order two_ticker_world)))
         = None
      /\ (exists p w',
             PositionCRUD_recalculate_position "AAA"
               (snd (PositionCRUD_recalculate_all_positions last_seen_order
                       two_ticker_world))
             = (Return true, w')
             /\ find_position "AAA" (tables w') = Some p)
      /\ fst (recalculate_all_positions reject_non_dict last_seen_order
                two_ticker_world)
         = Return (OperationResponse.mk false
                     "Error recalculating all positions: connection failed"
                     None)).
Proof.
  split.
  - split; [reflexivity |]. split; [reflexivity |]. split; [reflexivity |].
    split; [| reflexivity].
    eexists _, _. split; vm_compute; reflexivity.
  - split; [reflexivity |]. split; [reflexivity |]. split; [reflexivity |].
    split; [| reflexivity].
    eexists _, _. split; vm_compute; reflexivity.
Qed.

Lemma recalculate_all_positions_fail_fast_witness :
  exists w',
    PositionCRUD_recalculate_all_positions last_seen_order two_ticker_world
    = (Raise (OperationalError "connection failed"), w')
    /\ tables w' = tables two_ticker_world.
Proof.
  exact (proj1 (recalculate_all_positions_fail_fast reject_non_dict
                  last_seen_order two_ticker_world)).
Defined.

Lemma recalculate_position_idempotent_witness :
  positions
    (tables (snd (PositionCRUD_recalculate_position "aapl"
                    (snd (PositionCRUD_recalculate_position "aapl"
                            one_buy_world)))))
  = positions
      (tables (snd (PositionCRUD_recalculate_position "aapl" one_buy_world))).
Proof.
  apply (proj1 (recalculate_position_idempotent "aapl") one_buy_world
           (snd (PositionCRUD_recalculate_position "aapl" one_buy_world))
           (snd (PositionCRUD_recalculate_position "aapl" one_buy_world)));
    reflexivity.
Defined.

(** It fails for a position that cost nothing and has gained: nothing is
    invested, and the win rate is 100. *)
Lemma win_rate_not_zero_without_investment :
  ~ both_metrics_zero_without_investment.
Proof.
  intros H.
  destruct (H free_share_world eq_refl) as (m & w' & Hrun & _ & Hwin).
  - left. exists 0%Q. split; reflexivity.
  - vm_compute in Hrun. injection Hrun as <- _.
    vm_compute in Hwin. discriminate.
Qed.

Lemma performance_metrics_zero_denominators_witness :
  exists m w',
    PortfolioCRUD_get_performance_metrics free_share_world = (Return m, w')
    /\ total_return_percentage m = 0%Q
    /\ win_rate m
       = (inject_Z (Z.of_nat (winning_positions free_share_world))
          / inject_Z
              (Z.of_nat (List.length (current_positions free_share_world)))
          * 100)%Q.
Proof.
  apply (proj2 (proj2 (proj2
           (performance_metrics_zero_denominators free_share_world)))).
  - reflexivity.
  - vm_compute. discriminate.
  - intros v Hv. vm_compute in Hv. injection Hv as <-. vm_compute.
    discriminate.
Defined.

(** In [free_share_world] that is one winning position out of one: 100. *)
Example free_share_win_rate :
  winning_positions free_share_world = 1
  /\ List.length (current_positions free_share_world) = 1
  /\ fst (PortfolioCRUD_get_performance_metrics free_share_world)
     = Return (mkMetrics (aggregates_of (tables free_share_world)) 0
                 (inject_Z 1 / inject_Z 1 * 100)%Q).
Proof. repeat split. Qed.

(** And in an empty store both percentages are 0. *)
Example empty_store_metrics :
  exists m w',
    PortfolioCRUD_get_performance_metrics empty_world = (Return m, w')
    /\ total_return_percentage m = 0%Q
    /\ win_rate m = 0%Q.
Proof. eexists _, _. repeat split. Qed.

Lemma enum_check_type_is_enum : type_is_enum enum_check.
Proof.
  intros row Hcheck. unfold enum_check in Hcheck.
  apply andb_true_iff in Hcheck. destruct Hcheck as [Hty _].
  apply existsb_exists in Hty. destruct Hty as (label & Hin & Heq).
  apply String.eqb_eq in Heq. now rewrite Heq.
Qed.

(** The type FOO, on a table with the two enum types: the INSERT fails and
    the table stays empty. *)
Lemma create_transaction_rejects_malformed_requests_witness :
  exists resp w',
    create_transaction enum_check reject_non_dict unknown_type_request
      empty_world
    = (Return resp, w')
    /\ OperationResponse.success resp = false
    /\ transactions (tables w') = transactions (tables empty_world).
Proof.
  apply (proj2 (proj2 (create_transaction_rejects_malformed_requests
                         enum_check reject_non_dict unknown_type_request
                         empty_world))).
  - exact enum_check_type_is_enum.
  - reflexivity.
  - cbn. intros [E | [E | [E | [E | []]]]]; discriminate.
Defined.

(** The same request with a date in another format is refused before the
    INSERT. *)
Example bad_date_is_refused :
  create_transaction enum_check reject_non_dict bad_date_request empty_world
  = (Return (OperationResponse.mk false
               "Error creating transaction: time data does not match format %Y-%m-%d"
               None),
     empty_world).
Proof. reflexivity. Qed.

(** The refusal of the type is the table's alone: were the column plain
    text, FOO would be stored. *)
Example unknown_type_reaches_the_insert :
  exists resp w',
    create_transaction no_constraints reject_non_dict unknown_type_request
      empty_world
    = (Return resp, w')
    /\ OperationResponse.success resp = true
    /\ map Transaction.transaction_type (transactions (tables w')) = ["FOO"].
Proof. eexists _, _. repeat split. Qed.

Lemma update_transaction_changes_supplied_fields_only_witness :
  Forall2 (row_updated "1" quantity_update)
    (transactions (tables one_buy_world))
    (transactions
       (tables (snd (TransactionCRUD_update_transaction no_constraints "1"
                       quantity_update one_buy_world))))
  /\ rows_named "1" (transactions (tables one_buy_world)) <> [].
Proof.
  apply (proj1 (proj2 (proj1
           (update_transaction_changes_supplied_fields_only
              no_constraints reject_non_dict "1" quantity_update
              (UpdateTransactionInput.mk "1" None None None None None None
                 None None None None)
              one_buy_world)))).
  reflexivity.
Defined.

(** C6 at the failing input: a request to sell -5 shares.  Whenever the
    connection succeeds and the table accepts the row, the quantity is
    stored with its sign. *)
Theorem negative_quantity_is_stored
    (transactions_check : Transaction.row -> bool)
    (coerce_to_dict : PyVal -> Py PyVal) :
  transactions_check
    (inserted_row negative_quantity_request (mkdate 2024 3 1) empty_world)
  = true ->
  exists resp w',
    create_transaction transactions_check coerce_to_dict
      negative_quantity_request empty_world
    = (Return resp, w')
    /\ OperationResponse.success resp = true
    /\ map Transaction.quantity (transactions (tables w')) = [(-5)%Q].
Proof.
  intros Hcheck.
  destruct (create_transaction_accepted transactions_check coerce_to_dict
              negative_quantity_request (mkdate 2024 3 1) empty_world
              eq_refl eq_refl eq_refl Hcheck)
    as (resp & w' & Hrun & Hs & Hrows).
  exists resp, w'. split; [exact Hrun |]. split; [exact Hs |].
  rewrite Hrows. reflexivity.
Qed.

Lemma negative_quantity_is_stored_witness :
  exists resp w',
    create_transaction no_constraints reject_non_dict
      negative_quantity_request empty_world
    = (Return resp, w')
    /\ OperationResponse.success resp = true
    /\ map Transaction.quantity (transactions (tables w')) = [(-5)%Q].
Proof.
  apply (negative_quantity_is_stored no_constraints reject_non_dict).
  reflexivity.
Defined.

Lemma position_market_fields_consistent_witness :
  exists p,
    find_position "AAPL"
      (tables (snd (PositionCRUD_update_position_market_data price_update
                      one_buy_world)))
    = Some p
    /\ Position.current_price p = Some 120%Q
    /\ Position.current_market_value p
       = Some (Position.current_quantity p * 120)%Q
    /\ Position.unrealized_gain_loss p
       = Some (Position.current_quantity p * 120
               - Position.total_cost_basis p)%Q.
Proof.
  apply (proj2 (position_market_fields_consistent no_constraints
                  no_summary_view reject_non_dict no_isoformat
                  first_seen_order)
           price_update one_buy_world).
  reflexivity.
Defined.

Lemma ticker_analysis_counts_raw_quantities_witness :
  total_bought
    (analysis_metrics
       (mkTickerAnalysis "VWCE" None [fractional_buy]
          (mkTickerMetrics (0 + 10) 0 (0 + 10 - 0) 1)))
  == total_of_type "BUY" "VWCE" [fractional_buy].
Proof.
  apply (proj1 (ticker_analysis_counts_raw_quantities "vwce"
                  (mkWorld (mkTables [fractional_buy] [] 1) 0 []))
           _ (mkWorld (mkTables [fractional_buy] [] 1) 2 [])).
  reflexivity.
Defined.

Lemma search_quantity_bounds_witness :
  exists rows w',
    PortfolioCRUD_search_transactions None None None None
      (Some 3%Q) (Some 10%Q) signed_world
    = (Return rows, w')
    /\ forall r,
         In r rows <->
         In r (transactions (tables signed_world))
         /\ forallb (condition_holds r)
              (other_conditions None None None None) = true
         /\ (3 <= Qabs (Transaction.quantity r))%Q
         /\ (Qabs (Transaction.quantity r) <= 10)%Q.
Proof.
  apply (proj2 (proj2 (proj2 (proj2
           (search_quantity_bounds reject_non_dict None None None None None
              None 3 10 None signed_world)))));
    [discriminate | discriminate | reflexivity].
Defined.

(** The sale stored as -5 is found between 3 and 10, the purchase of 2 is
    not. *)
Example search_compares_absolute_quantity :
  fst (PortfolioCRUD_search_transactions None None None None
         (Some 3%Q) (Some 10%Q) signed_world)
  = Return [sell_row 1 "AAPL" (-5) 150 (mkdate 2024 1 2)].
Proof. reflexivity. Qed.
